(** * Rehau NEA Smart 2 MQTT client: a shallow embedding of [MqttClient]

    The development follows
    [custom_components/rehau_nea_smart_2/rehau_mqtt_client/MqttClient.py]
    and [models/installation.py].  The client object becomes a record
    [State]; every method becomes a computation in a state-and-exception
    monad [M]: a Python exception leaves the mutations made before it in
    place, so a computation returns the new state together with either an
    exception or a value.  Calls into the transport library (paho), the
    scheduler (aiocron, asyncio), the logger and the observers are recorded
    as [Event]s in a trace held by the state; calls into the identity service
    and the other helpers of [handlers.py] and [utils.py] are taken as
    parameters ([Externals]).  The methods that only hand a message over
    to [handlers.py] ([on_message], [check_credentials]) and the unused
    [run_scheduler] are left out. *)

From Stdlib Require Import ZArith Lia Ascii.
From stdpp Require Import base option list gmap sets strings pretty.

Open Scope string_scope.
Open Scope list_scope.
Open Scope Z_scope.

(** ** Strings

    A Python [str] is modelled by [string]; one [ascii] stands for one
    character with a code point below 256.  On that range the
    case-insensitive comparison of [re.I] is the folding of the letters
    A to Z onto a to z for the letters the pattern uses. *)

Definition ascii_lower (c : ascii) : ascii :=
  let n := N_of_ascii c in
  if ((65 <=? n) && (n <=? 90))%N then ascii_of_N (n + 32) else c.

(** [match_ci pat s]: the literal [pat] matched at the start of [s] under
    [re.I]; the text that was matched (what [match.group(0)] returns). *)
Fixpoint match_ci (pat s : string) : option string :=
  match pat, s with
  | EmptyString, _ => Some EmptyString
  | String p pat', String c s' =>
      if Ascii.eqb (ascii_lower p) (ascii_lower c)
      then String c <$> match_ci pat' s'
      else None
  | String _ _, EmptyString => None
  end.

(** The alternation [a|b|...]: the first alternative that matches wins. *)
Fixpoint match_alt (alts : list string) (s : string) : option string :=
  match alts with
  | [] => None
  | pat :: alts' =>
      match match_ci pat s with
      | Some m => Some m
      | None => match_alt alts' s
      end
  end.

(** ** Exceptions

    Modelled from the spec: the three exception classes of [exceptions.py]
    (authentication, communication and client/model errors), which are
    imported by the client and not defined in it; they are distinct
    classes, so [except MqttClientAuthenticationError] catches the first
    one only.  The remaining constructors are the built-in exceptions that
    the client's own code can raise. *)
Inductive Exn : Type :=
| MqttClientAuthenticationError (msg : string)
| MqttClientCommunicationError (msg : string)
| MqttClientError (msg : string)
| KeyError (key : string)
| TypeError (msg : string)
| AttributeError (msg : string)
| IndexError (msg : string).

Definition is_authentication_error (e : Exn) : bool :=
  match e with MqttClientAuthenticationError _ => true | _ => false end.

Definition is_communication_error (e : Exn) : bool :=
  match e with MqttClientCommunicationError _ => true | _ => false end.

(** [str(e)] *)
Definition exn_str (e : Exn) : string :=
  match e with
  | MqttClientAuthenticationError m | MqttClientCommunicationError m
  | MqttClientError m | KeyError m | TypeError m | AttributeError m
  | IndexError m => m
  end.

(** ** [re.sub] with a function as replacement

    [re_sub alts repl s] scans [s] from the left.  Where an alternative
    matches, the replacement function is called on the matched text; an
    exception of that call aborts the substitution, a result [None] adds
    nothing to the output, and the scan goes on after the match.  Elsewhere
    the character is copied.  [skip] counts the characters of the current
    match that are still to be passed over. *)
Fixpoint re_sub_from (alts : list string) (repl : string → Exn + option string)
    (skip : nat) (s : string) : Exn + string :=
  match s with
  | EmptyString => inr EmptyString
  | String c s' =>
      match skip with
      | S k => re_sub_from alts repl k s'
      | O =>
          match match_alt alts s with
          | Some (String _ m' as m) =>
              match repl m with
              | inl e => inl e
              | inr r =>
                  match re_sub_from alts repl (String.length m') s' with
                  | inl e => inl e
                  | inr out => inr (default EmptyString r +:+ out)
                  end
              end
          | _ =>
              match re_sub_from alts repl O s' with
              | inl e => inl e
              | inr out => inr (String c out)
              end
          end
      end
  end.

Definition re_sub (alts : list string) (repl : string → Exn + option string)
    (s : string) : Exn + string :=
  re_sub_from alts repl O s.

(** ** The installation model ([models/installation.py])

    The installations are dictionaries of the shape of these classes,
    together with the five live-telemetry entries of [LiveEmu] that
    [update_live_data] writes and [set_user] reads.  Python integers are
    unbounded: [Z]; a [bool] telemetry value is the integer 0 or 1. *)

Record Cooling := { cooling_normal : Z; cooling_reduced : Z }.

Record Heating := {
  heating_normal : Z; heating_reduced : Z; heating_standby : Z }.

Record Setpoints := {
  sp_cooling : Cooling; sp_heating : Heating; sp_min : Z; sp_max : Z }.

Record Channel := {
  channel_id_of : string;
  target_temperature : Z;
  current_temperature : Z;
  energy_level : Z;
  channel_operating_mode : Z;
  humidity : Z;
  demand : Z;
  setpoints : Setpoints }.

Record Zone := {
  zone_id : string; zone_name : string; zone_number : Z;
  channels : list Channel }.

Record Group := { group_id : string; group_name : string; zones : list Zone }.

Record Installation := {
  inst_id : string;
  unique : string;
  global_energy_level : Z;
  connected : bool;
  operating_mode : Z;
  groups : list Group;
  outside_temp : Z;
  outsideTempFiltered : Z;
  pumpOn : Z;
  mixed_circuit1_setpoint : Z;
  mixed_circuit1_supply : Z;
  mixed_circuit1_return : Z;
  mixed_circuit1_opening : Z }.

(** [channel["energy_level"] = mode_used;
     channel["target_temperature"] = setpoint_used] *)
Definition channel_write (mode_used setpoint_used : Z) (c : Channel) : Channel :=
  {| channel_id_of := channel_id_of c;
     target_temperature := setpoint_used;
     current_temperature := current_temperature c;
     energy_level := mode_used;
     channel_operating_mode := channel_operating_mode c;
     humidity := humidity c;
     demand := demand c;
     setpoints := setpoints c |}.

Definition zone_with_channels (cs : list Channel) (z : Zone) : Zone :=
  {| zone_id := zone_id z; zone_name := zone_name z;
     zone_number := zone_number z; channels := cs |}.

Definition group_with_zones (zs : list Zone) (g : Group) : Group :=
  {| group_id := group_id g; group_name := group_name g; zones := zs |}.

Definition installation_with_groups (gs : list Group) (i : Installation)
    : Installation :=
  {| inst_id := inst_id i; unique := unique i;
     global_energy_level := global_energy_level i; connected := connected i;
     operating_mode := operating_mode i; groups := gs;
     outside_temp := outside_temp i;
     outsideTempFiltered := outsideTempFiltered i;
     pumpOn := pumpOn i;
     mixed_circuit1_setpoint := mixed_circuit1_setpoint i;
     mixed_circuit1_supply := mixed_circuit1_supply i;
     mixed_circuit1_return := mixed_circuit1_return i;
     mixed_circuit1_opening := mixed_circuit1_opening i |}.

(** The payloads that the message handlers pass to the store. *)
Record LivePayload := {
  live_install_id : string;
  live_pumpOn : Z;
  live_mixed_circuit1_setpoint : Z;
  live_mixed_circuit1_supply : Z;
  live_mixed_circuit1_return : Z;
  live_mixed_circuit1_opening : Z }.

Record ChannelPayload := {
  channel_id : string;
  install_id : string;
  mode_used : Z;
  setpoint_used : Z }.

(** The five assignments of [update_live_data]. *)
Definition installation_write_live (p : LivePayload) (i : Installation)
    : Installation :=
  {| inst_id := inst_id i; unique := unique i;
     global_energy_level := global_energy_level i; connected := connected i;
     operating_mode := operating_mode i; groups := groups i;
     outside_temp := outside_temp i;
     outsideTempFiltered := outsideTempFiltered i;
     pumpOn := live_pumpOn p;
     mixed_circuit1_setpoint := live_mixed_circuit1_setpoint p;
     mixed_circuit1_supply := live_mixed_circuit1_supply p;
     mixed_circuit1_return := live_mixed_circuit1_return p;
     mixed_circuit1_opening := live_mixed_circuit1_opening p |}.

(** ** Tokens, users and the current installation *)

Record TokenData := {
  td_access_token : option string;
  td_refresh_token : option string;
  td_expires_in : option Z }.

Record CurrentInstallation := {
  ci_id : option string; ci_unique : option string; ci_hash : option string }.

Record RawInstallUser := { heatcool_auto_01 : option Z }.

(** The paho client object and the asyncio task of the scheduler. *)
Inductive Client : Type := MkClient (client_id : string).
Inductive Task : Type := MkTask (name : string).

(** ** What the client does to the outside *)

Inductive Level : Type := DEBUG | INFO | ERROR.

Inductive Job : Type :=
| job_refresh_http
| job_refresh_live_data
| job_request_server_referentials
| job_refresh_token.

Inductive Event : Type :=
| Log (lvl : Level) (msg : string)
| Unsubscribe (topic : string)
| Subscribe (topic : string)
| Publish (topic payload : string)
| ClientDisconnect
| LoopStart
| LoopStop
| ClientNew (client_id transport : string)
| UsernamePwSet (user password : string)
| TlsSet
| EnableLogger
| ReconnectDelaySet (min_delay max_delay : Z)
| Connect (host : string) (port : Z)
| CreateTask (name : string)
| TaskCancel (t : Task)
| Crontab (spec : string) (job : Job)
| Called (callback : nat).

(** The messages that the client publishes, before [json.dumps]. *)
Inductive Message : Type :=
| ReqLive
| UserRead (ID token : string) (data_demand : option string) (data_email : string)
| UserReferential (ID token : string).

Definition MQTT_ERR_SUCCESS : Z := 0.

(** ** The client

    [Json] is the type of the undecoded parts of the payloads and [W] the
    state of everything outside the client (the identity service and the
    broker), which an external call reads and changes. *)

Section Client.

Context {W Json : Type}.

(** An entry of [user["installs"]]: the keys that the client reads and
    the rest.  The client never reads the live-telemetry entries of a raw
    install; they are there for [parse_installations], of which the spec
    says that it fills the fields that "the raw payload does not carry". *)
Record RawInstall := {
  raw__id : string;
  raw_unique : string;
  raw_hash : option string;
  raw_user : option RawInstallUser;
  raw_groups : option (list Json);
  raw_pumpOn : option Z;
  raw_mixed_circuit1_setpoint : option Z;
  raw_mixed_circuit1_supply : option Z;
  raw_mixed_circuit1_return : option Z;
  raw_mixed_circuit1_opening : option Z;
  raw_rest : Json }.

Record User := {
  installs : option (list RawInstall);
  defaultInstall : option string;
  transactionId : option string }.

(** The payload of [read_user_http]. *)
Record ReadUserPayload := {
  rup_username : string;
  rup_installs_ids : list string;
  rup_install_hash : option string;
  rup_token : string;
  rup_demand : option string }.

(** What the client imports: the topic templates of [utils.py], the
    functions of [handlers.py], [json.dumps], and the outcome of a publish
    on the broker connection. *)
Class Externals := {
  LISTEN : string;
  LISTEN_TO_CONTROLLER : string;
  INSTALLATION : string;
  USER_READ : string;
  USER_REFERENTIAL : string;
  json_dumps : Message → string;
  handlers_auth : string → string → W → W * (Exn + (TokenData * User));
  handlers_refresh : string → W → W * (Exn + TokenData);
  handlers_read_user_state : ReadUserPayload → W → W * (Exn + option User);
  parse_installations :
    list RawInstall → option Z → Z → Z → Z → Z → Z → Exn + list Installation;
  client_publish : string → string → W → W * (Z * Z) }.

Context {E : Externals}.

Definition MAX_CONNECT_RETRIES : Z := 5.

(** The attributes of the client object, the outside world and the trace
    of what the client did to it. *)
Record State := {
  username : string;
  password : string;
  auth_username : string;
  auth_password : string;
  token_data : option TokenData;
  user : option User;
  installations : option (list Installation);
  authenticated : bool;
  referentials : option Json;
  transaction_id : option string;
  last_operating_mode : option Z;
  last_pumpOn : Z;
  last_mc1_setpoint : Z;
  last_mc1_supply : Z;
  last_mc1_return : Z;
  last_mc1_opening : Z;
  current_installation : CurrentInstallation;
  client_id : string;
  client : option Client;
  stop_scheduler_loop : bool;
  scheduler_task : option Task;
  number_of_retries : Z;
  number_of_message_failures : Z;
  callbacks : gset nat;
  world : W;
  trace : list Event }.

(** Assignments to the attributes. *)
Definition with_token_data (v : option TokenData) (st : State) : State :=
  {| username := username st; password := password st;
     auth_username := auth_username st; auth_password := auth_password st;
     token_data := v; user := user st; installations := installations st;
     authenticated := authenticated st; referentials := referentials st;
     transaction_id := transaction_id st;
     last_operating_mode := last_operating_mode st;
     last_pumpOn := last_pumpOn st;
     last_mc1_setpoint := last_mc1_setpoint st;
     last_mc1_supply := last_mc1_supply st;
     last_mc1_return := last_mc1_return st;
     last_mc1_opening := last_mc1_opening st;
     current_installation := current_installation st;
     client_id := client_id st; client := client st;
     stop_scheduler_loop := stop_scheduler_loop st;
     scheduler_task := scheduler_task st;
     number_of_retries := number_of_retries st;
     number_of_message_failures := number_of_message_failures st;
     callbacks := callbacks st; world := world st; trace := trace st |}.

Definition with_user (v : option User) (st : State) : State :=
  {| username := username st; password := password st;
     auth_username := auth_username st; auth_password := auth_password st;
     token_data := token_data st; user := v;
     installations := installations st; authenticated := authenticated st;
     referentials := referentials st; transaction_id := transaction_id st;
     last_operating_mode := last_operating_mode st;
     last_pumpOn := last_pumpOn st;
     last_mc1_setpoint := last_mc1_setpoint st;
     last_mc1_supply := last_mc1_supply st;
     last_mc1_return := last_mc1_return st;
     last_mc1_opening := last_mc1_opening st;
     current_installation := current_installation st;
     client_id := client_id st; client := client st;
     stop_scheduler_loop := stop_scheduler_loop st;
     scheduler_task := scheduler_task st;
     number_of_retries := number_of_retries st;
     number_of_message_failures := number_of_message_failures st;
     callbacks := callbacks st; world := world st; trace := trace st |}.

Definition with_installations (v : option (list Installation)) (st : State) : State :=
  {| username := username st; password := password st;
     auth_username := auth_username st; auth_password := auth_password st;
     token_data := token_data st; user := user st; installations := v;
     authenticated := authenticated st; referentials := referentials st;
     transaction_id := transaction_id st;
     last_operating_mode := last_operating_mode st;
     last_pumpOn := last_pumpOn st;
     last_mc1_setpoint := last_mc1_setpoint st;
     last_mc1_supply := last_mc1_supply st;
     last_mc1_return := last_mc1_return st;
     last_mc1_opening := last_mc1_opening st;
     current_installation := current_installation st;
     client_id := client_id st; client := client st;
     stop_scheduler_loop := stop_scheduler_loop st;
     scheduler_task := scheduler_task st;
     number_of_retries := number_of_retries st;
     number_of_message_failures := number_of_message_failures st;
     callbacks := callbacks st; world := world st; trace := trace st |}.

Definition with_authenticated (v : bool) (st : State) : State :=
  {| username := username st; password := password st;
     auth_username := auth_username st; auth_password := auth_password st;
     token_data := token_data st; user := user st;
     installations := installations st; authenticated := v;
     referentials := referentials st; transaction_id := transaction_id st;
     last_operating_mode := last_operating_mode st;
     last_pumpOn := last_pumpOn st;
     last_mc1_setpoint := last_mc1_setpoint st;
     last_mc1_supply := last_mc1_supply st;
     last_mc1_return := last_mc1_return st;
     last_mc1_opening := last_mc1_opening st;
     current_installation := current_installation st;
     client_id := client_id st; client := client st;
     stop_scheduler_loop := stop_scheduler_loop st;
     scheduler_task := scheduler_task st;
     number_of_retries := number_of_retries st;
     number_of_message_failures := number_of_message_failures st;
     callbacks := callbacks st; world := world st; trace := trace st |}.

Definition with_last_operating_mode (v : option Z) (st : State) : State :=
  {| username := username st; password := password st;
     auth_username := auth_username st; auth_password := auth_password st;
     token_data := token_data st; user := user st;
     installations := installations st; authenticated := authenticated st;
     referentials := referentials st; transaction_id := transaction_id st;
     last_operating_mode := v; last_pumpOn := last_pumpOn st;
     last_mc1_setpoint := last_mc1_setpoint st;
     last_mc1_supply := last_mc1_supply st;
     last_mc1_return := last_mc1_return st;
     last_mc1_opening := last_mc1_opening st;
     current_installation := current_installation st;
     client_id := client_id st; client := client st;
     stop_scheduler_loop := stop_scheduler_loop st;
     scheduler_task := scheduler_task st;
     number_of_retries := number_of_retries st;
     number_of_message_failures := number_of_message_failures st;
     callbacks := callbacks st; world := world st; trace := trace st |}.

Definition with_last_pumpOn (v : Z) (st : State) : State :=
  {| username := username st; password := password st;
     auth_username := auth_username st; auth_password := auth_password st;
     token_data := token_data st; user := user st;
     installations := installations st; authenticated := authenticated st;
     referentials := referentials st; transaction_id := transaction_id st;
     last_operating_mode := last_operating_mode st; last_pumpOn := v;
     last_mc1_setpoint := last_mc1_setpoint st;
     last_mc1_supply := last_mc1_supply st;
     last_mc1_return := last_mc1_return st;
     last_mc1_opening := last_mc1_opening st;
     current_installation := current_installation st;
     client_id := client_id st; client := client st;
     stop_scheduler_loop := stop_scheduler_loop st;
     scheduler_task := scheduler_task st;
     number_of_retries := number_of_retries st;
     number_of_message_failures := number_of_message_failures st;
     callbacks := callbacks st; world := world st; trace := trace st |}.

Definition with_last_mc1_setpoint (v : Z) (st : State) : State :=
  {| username := username st; password := password st;
     auth_username := auth_username st; auth_password := auth_password st;
     token_data := token_data st; user := user st;
     installations := installations st; authenticated := authenticated st;
     referentials := referentials st; transaction_id := transaction_id st;
     last_operating_mode := last_operating_mode st;
     last_pumpOn := last_pumpOn st; last_mc1_setpoint := v;
     last_mc1_supply := last_mc1_supply st;
     last_mc1_return := last_mc1_return st;
     last_mc1_opening := last_mc1_opening st;
     current_installation := current_installation st;
     client_id := client_id st; client := client st;
     stop_scheduler_loop := stop_scheduler_loop st;
     scheduler_task := scheduler_task st;
     number_of_retries := number_of_retries st;
     number_of_message_failures := number_of_message_failures st;
     callbacks := callbacks st; world := world st; trace := trace st |}.

Definition with_last_mc1_supply (v : Z) (st : State) : State :=
  {| username := username st; password := password st;
     auth_username := auth_username st; auth_password := auth_password st;
     token_data := token_data st; user := user st;
     installations := installations st; authenticated := authenticated st;
     referentials := referentials st; transaction_id := transaction_id st;
     last_operating_mode := last_operating_mode st;
     last_pumpOn := last_pumpOn st;
     last_mc1_setpoint := last_mc1_setpoint st; last_mc1_supply := v;
     last_mc1_return := last_mc1_return st;
     last_mc1_opening := last_mc1_opening st;
     current_installation := current_installation st;
     client_id := client_id st; client := client st;
     stop_scheduler_loop := stop_scheduler_loop st;
     scheduler_task := scheduler_task st;
     number_of_retries := number_of_retries st;
     number_of_message_failures := number_of_message_failures st;
     callbacks := callbacks st; world := world st; trace := trace st |}.

Definition with_last_mc1_return (v : Z) (st : State) : State :=
  {| username := username st; password := password st;
     auth_username := auth_username st; auth_password := auth_password st;
     token_data := token_data st; user := user st;
     installations := installations st; authenticated := authenticated st;
     referentials := referentials st; transaction_id := transaction_id st;
     last_operating_mode := last_operating_mode st;
     last_pumpOn := last_pumpOn st;
     last_mc1_setpoint := last_mc1_setpoint st;
     last_mc1_supply := last_mc1_supply st; last_mc1_return := v;
     last_mc1_opening := last_mc1_opening st;
     current_installation := current_installation st;
     client_id := client_id st; client := client st;
     stop_scheduler_loop := stop_scheduler_loop st;
     scheduler_task := scheduler_task st;
     number_of_retries := number_of_retries st;
     number_of_message_failures := number_of_message_failures st;
     callbacks := callbacks st; world := world st; trace := trace st |}.

Definition with_last_mc1_opening (v : Z) (st : State) : State :=
  {| username := username st; password := password st;
     auth_username := auth_username st; auth_password := auth_password st;
     token_data := token_data st; user := user st;
     installations := installations st; authenticated := authenticated st;
     referentials := referentials st; transaction_id := transaction_id st;
     last_operating_mode := last_operating_mode st;
     last_pumpOn := last_pumpOn st;
     last_mc1_setpoint := last_mc1_setpoint st;
     last_mc1_supply := last_mc1_supply st;
     last_mc1_return := last_mc1_return st; last_mc1_opening := v;
     current_installation := current_installation st;
     client_id := client_id st; client := client st;
     stop_scheduler_loop := stop_scheduler_loop st;
     scheduler_task := scheduler_task st;
     number_of_retries := number_of_retries st;
     number_of_message_failures := number_of_message_failures st;
     callbacks := callbacks st; world := world st; trace := trace st |}.

Definition with_current_installation (v : CurrentInstallation) (st : State) : State :=
  {| username := username st; password := password st;
     auth_username := auth_username st; auth_password := auth_password st;
     token_data := token_data st; user := user st;
     installations := installations st; authenticated := authenticated st;
     referentials := referentials st; transaction_id := transaction_id st;
     last_operating_mode := last_operating_mode st;
     last_pumpOn := last_pumpOn st;
     last_mc1_setpoint := last_mc1_setpoint st;
     last_mc1_supply := last_mc1_supply st;
     last_mc1_return := last_mc1_return st;
     last_mc1_opening := last_mc1_opening st; current_installation := v;
     client_id := client_id st; client := client st;
     stop_scheduler_loop := stop_scheduler_loop st;
     scheduler_task := scheduler_task st;
     number_of_retries := number_of_retries st;
     number_of_message_failures := number_of_message_failures st;
     callbacks := callbacks st; world := world st; trace := trace st |}.

Definition with_client (v : option Client) (st : State) : State :=
  {| username := username st; password := password st;
     auth_username := auth_username st; auth_password := auth_password st;
     token_data := token_data st; user := user st;
     installations := installations st; authenticated := authenticated st;
     referentials := referentials st; transaction_id := transaction_id st;
     last_operating_mode := last_operating_mode st;
     last_pumpOn := last_pumpOn st;
     last_mc1_setpoint := last_mc1_setpoint st;
     last_mc1_supply := last_mc1_supply st;
     last_mc1_return := last_mc1_return st;
     last_mc1_opening := last_mc1_opening st;
     current_installation := current_installation st;
     client_id := client_id st; client := v;
     stop_scheduler_loop := stop_scheduler_loop st;
     scheduler_task := scheduler_task st;
     number_of_retries := number_of_retries st;
     number_of_message_failures := number_of_message_failures st;
     callbacks := callbacks st; world := world st; trace := trace st |}.

Definition with_stop_scheduler_loop (v : bool) (st : State) : State :=
  {| username := username st; password := password st;
     auth_username := auth_username st; auth_password := auth_password st;
     token_data := token_data st; user := user st;
     installations := installations st; authenticated := authenticated st;
     referentials := referentials st; transaction_id := transaction_id st;
     last_operating_mode := last_operating_mode st;
     last_pumpOn := last_pumpOn st;
     last_mc1_setpoint := last_mc1_setpoint st;
     last_mc1_supply := last_mc1_supply st;
     last_mc1_return := last_mc1_return st;
     last_mc1_opening := last_mc1_opening st;
     current_installation := current_installation st;
     client_id := client_id st; client := client st;
     stop_scheduler_loop := v; scheduler_task := scheduler_task st;
     number_of_retries := number_of_retries st;
     number_of_message_failures := number_of_message_failures st;
     callbacks := callbacks st; world := world st; trace := trace st |}.

Definition with_scheduler_task (v : option Task) (st : State) : State :=
  {| username := username st; password := password st;
     auth_username := auth_username st; auth_password := auth_password st;
     token_data := token_data st; user := user st;
     installations := installations st; authenticated := authenticated st;
     referentials := referentials st; transaction_id := transaction_id st;
     last_operating_mode := last_operating_mode st;
     last_pumpOn := last_pumpOn st;
     last_mc1_setpoint := last_mc1_setpoint st;
     last_mc1_supply := last_mc1_supply st;
     last_mc1_return := last_mc1_return st;
     last_mc1_opening := last_mc1_opening st;
     current_installation := current_installation st;
     client_id := client_id st; client := client st;
     stop_scheduler_loop := stop_scheduler_loop st; scheduler_task := v;
     number_of_retries := number_of_retries st;
     number_of_message_failures := number_of_message_failures st;
     callbacks := callbacks st; world := world st; trace := trace st |}.

Definition with_number_of_retries (v : Z) (st : State) : State :=
  {| username := username st; password := password st;
     auth_username := auth_username st; auth_password := auth_password st;
     token_data := token_data st; user := user st;
     installations := installations st; authenticated := authenticated st;
     referentials := referentials st; transaction_id := transaction_id st;
     last_operating_mode := last_operating_mode st;
     last_pumpOn := last_pumpOn st;
     last_mc1_setpoint := last_mc1_setpoint st;
     last_mc1_supply := last_mc1_supply st;
     last_mc1_return := last_mc1_return st;
     last_mc1_opening := last_mc1_opening st;
     current_installation := current_installation st;
     client_id := client_id st; client := client st;
     stop_scheduler_loop := stop_scheduler_loop st;
     scheduler_task := scheduler_task st; number_of_retries := v;
     number_of_message_failures := number_of_message_failures st;
     callbacks := callbacks st; world := world st; trace := trace st |}.

Definition with_number_of_message_failures (v : Z) (st : State) : State :=
  {| username := username st; password := password st;
     auth_username := auth_username st; auth_password := auth_password st;
     token_data := token_data st; user := user st;
     installations := installations st; authenticated := authenticated st;
     referentials := referentials st; transaction_id := transaction_id st;
     last_operating_mode := last_operating_mode st;
     last_pumpOn := last_pumpOn st;
     last_mc1_setpoint := last_mc1_setpoint st;
     last_mc1_supply := last_mc1_supply st;
     last_mc1_return := last_mc1_return st;
     last_mc1_opening := last_mc1_opening st;
     current_installation := current_installation st;
     client_id := client_id st; client := client st;
     stop_scheduler_loop := stop_scheduler_loop st;
     scheduler_task := scheduler_task st;
     number_of_retries := number_of_retries st;
     number_of_message_failures := v; callbacks := callbacks st;
     world := world st; trace := trace st |}.

Definition with_callbacks (v : gset nat) (st : State) : State :=
  {| username := username st; password := password st;
     auth_username := auth_username st; auth_password := auth_password st;
     token_data := token_data st; user := user st;
     installations := installations st; authenticated := authenticated st;
     referentials := referentials st; transaction_id := transaction_id st;
     last_operating_mode := last_operating_mode st;
     last_pumpOn := last_pumpOn st;
     last_mc1_setpoint := last_mc1_setpoint st;
     last_mc1_supply := last_mc1_supply st;
     last_mc1_return := last_mc1_return st;
     last_mc1_opening := last_mc1_opening st;
     current_installation := current_installation st;
     client_id := client_id st; client := client st;
     stop_scheduler_loop := stop_scheduler_loop st;
     scheduler_task := scheduler_task st;
     number_of_retries := number_of_retries st;
     number_of_message_failures := number_of_message_failures st;
     callbacks := v; world := world st; trace := trace st |}.

Definition with_world (v : W) (st : State) : State :=
  {| username := username st; password := password st;
     auth_username := auth_username st; auth_password := auth_password st;
     token_data := token_data st; user := user st;
     installations := installations st; authenticated := authenticated st;
     referentials := referentials st; transaction_id := transaction_id st;
     last_operating_mode := last_operating_mode st;
     last_pumpOn := last_pumpOn st;
     last_mc1_setpoint := last_mc1_setpoint st;
     last_mc1_supply := last_mc1_supply st;
     last_mc1_return := last_mc1_return st;
     last_mc1_opening := last_mc1_opening st;
     current_installation := current_installation st;
     client_id := client_id st; client := client st;
     stop_scheduler_loop := stop_scheduler_loop st;
     scheduler_task := scheduler_task st;
     number_of_retries := number_of_retries st;
     number_of_message_failures := number_of_message_failures st;
     callbacks := callbacks st; world := v; trace := trace st |}.

Definition with_trace (v : list Event) (st : State) : State :=
  {| username := username st; password := password st;
     auth_username := auth_username st; auth_password := auth_password st;
     token_data := token_data st; user := user st;
     installations := installations st; authenticated := authenticated st;
     referentials := referentials st; transaction_id := transaction_id st;
     last_operating_mode := last_operating_mode st;
     last_pumpOn := last_pumpOn st;
     last_mc1_setpoint := last_mc1_setpoint st;
     last_mc1_supply := last_mc1_supply st;
     last_mc1_return := last_mc1_return st;
     last_mc1_opening := last_mc1_opening st;
     current_installation := current_installation st;
     client_id := client_id st; client := client st;
     stop_scheduler_loop := stop_scheduler_loop st;
     scheduler_task := scheduler_task st;
     number_of_retries := number_of_retries st;
     number_of_message_failures := number_of_message_failures st;
     callbacks := callbacks st; world := world st; trace := v |}.

(** ** The monad of the methods *)

Definition M (A : Type) : Type := State → State * (Exn + A).

#[global] Instance M_ret : MRet M := λ A a st, (st, inr a).

#[global] Instance M_bind : MBind M := λ A B f m st,
  match m st with
  | (st', inl e) => (st', inl e)
  | (st', inr a) => f a st'
  end.

Definition raise {A : Type} (e : Exn) : M A := λ st, (st, inl e).

Definition get : M State := λ st, (st, inr st).

Definition modify (f : State → State) : M unit := λ st, (f st, inr tt).

(** A value or an exception computed without touching the state. *)
Definition lift {A : Type} (r : Exn + A) : M A := λ st, (st, r).

(** [try: body except ...: handler]: [handler e] is the body of the first
    [except] clause that matches [e], if there is one. *)
Definition try_except {A : Type} (body : M A) (handler : Exn → option (M A))
    : M A := λ st,
  match body st with
  | (st', inl e) =>
      match handler e with
      | Some h => h st'
      | None => (st', inl e)
      end
  | (st', inr a) => (st', inr a)
  end.

(** [for x in l: body x] *)
Fixpoint for_each {X : Type} (l : list X) (body : X → M unit) : M unit :=
  match l with
  | [] => mret tt
  | x :: l' => body x ;; for_each l' body
  end.

(** A call to the outside: it advances the world and returns a value or
    raises. *)
Definition external {R : Type} (f : W → W * (Exn + R)) : M R := λ st,
  let (w, r) := f (world st) in (with_world w st, r).

Definition emit (ev : Event) : M unit :=
  modify (λ st, with_trace (trace st ++ [ev]) st).

Definition log (lvl : Level) (msg : string) : M unit := emit (Log lvl msg).

(** A method call on [self.client]; the attribute is [None] until
    [init_mqtt_client] has run. *)
Definition client_call (ev : Event) : M unit :=
  st ← get;
  match client st with
  | Some _ => emit ev
  | None => raise (AttributeError "'NoneType' object has no attribute")
  end.

(** [self.token_data[key]] *)
Definition token_item (key : string) {A : Type} (field : TokenData → option A)
    : M A :=
  st ← get;
  match token_data st with
  | None => raise (TypeError "'NoneType' object is not subscriptable")
  | Some td =>
      match field td with
      | Some v => mret v
      | None => raise (KeyError key)
      end
  end.

(** ** The methods of [MqttClient] *)

Definition is_authenticated (st : State) : bool := authenticated st.

Definition is_ready (st : State) : bool :=
  bool_decide (is_Some (user st)) && bool_decide (is_Some (installations st)).

Definition get_install_id (st : State) : option string :=
  ci_id (current_installation st).

Definition get_install_unique (st : State) : option string :=
  ci_unique (current_installation st).

Definition get_install_hash (st : State) : option string :=
  ci_hash (current_installation st).

Definition get_installations (st : State) : option (list Installation) :=
  installations st.

Definition get_install_ids : M (list string) :=
  st ← get;
  match get_installations st with
  | None => raise (TypeError "'NoneType' object is not iterable")
  | Some insts => mret (inst_id <$> insts)
  end.

Definition subscribe_topics : list string := [LISTEN; LISTEN_TO_CONTROLLER].

(** The dictionary [replacements] of [replace_wildcards]. *)
Definition replacements (st : State) : gmap string (option string) :=
  <["{id}" := get_install_unique st]>
    (<["{email}" := Some (auth_username st)]> ∅).

(** [replace(match)]: [replacements[match.group(0)]] *)
Definition replace (st : State) (group0 : string) : Exn + option string :=
  match replacements st !! group0 with
  | Some v => inr v
  | None => inl (KeyError group0)
  end.

Definition replace_wildcards (topic : string) : M string := λ st,
  (st, re_sub ["{id}"; "{email}"] (replace st) topic).

Definition send_topics : M unit :=
  for_each subscribe_topics (λ topic,
    topic_str ← replace_wildcards topic;
    log DEBUG ("Subscribing to topic: " +:+ topic_str);;
    client_call (Unsubscribe topic_str);;
    client_call (Subscribe topic_str)).

Definition send_message (topic : string) (message : Message) : M Z :=
  let json_message := json_dumps message in
  topic ← replace_wildcards topic;
  log DEBUG ("Sending message " +:+ topic +:+ ": " +:+ json_message);;
  client_call (Publish topic json_message);;
  '(result, mid) ← external (λ w,
      let (w', r) := client_publish topic json_message w in (w', inr r));
  (if bool_decide (result ≠ MQTT_ERR_SUCCESS) then
     modify (λ st,
       with_number_of_message_failures (number_of_message_failures st + 1) st);;
     st ← get;
     if bool_decide (number_of_message_failures st > 5) then
       log ERROR ("Error sending message " +:+ topic +:+ ". Failed "
                  +:+ pretty (number_of_message_failures st)
                  +:+ " times. Data: " +:+ json_message)
     else mret tt
   else
     modify (with_number_of_message_failures 0));;
  mret mid.

Definition start_mqtt_client : M unit := client_call LoopStart.

Definition stop_scheduler : M unit :=
  log DEBUG "Stopping scheduler";;
  modify (with_stop_scheduler_loop true);;
  st ← get;
  match scheduler_task st with
  | Some t => emit (TaskCancel t);; modify (with_scheduler_task None)
  | None => mret tt
  end.

Definition disconnect : M unit :=
  for_each subscribe_topics (λ topic,
    topic_str ← replace_wildcards topic;
    log DEBUG ("Unsubscribing from topic: " +:+ topic_str);;
    client_call (Unsubscribe topic_str));;
  client_call ClientDisconnect;;
  client_call LoopStop;;
  stop_scheduler;;
  log DEBUG "Disconnected".

Definition on_disconnect (rc : Z) : M unit :=
  if bool_decide (rc ≠ 0) then
    modify (λ st, with_number_of_retries (number_of_retries st + 1) st);;
    st ← get;
    if bool_decide (number_of_retries st ≤ MAX_CONNECT_RETRIES) then
      log INFO "Unexpected disconnection. Retrying..."
    else
      log ERROR "Unexpected disconnection. Stopping...";;
      disconnect
  else mret tt.

Definition publish_updates : M unit :=
  st ← get;
  for_each (elements (callbacks st)) (λ callback, emit (Called callback)).

Definition register_callback (callback : nat) : M unit :=
  modify (λ st, with_callbacks (callbacks st ∪ {[callback]}) st).

Definition remove_callback (callback : nat) : M unit :=
  modify (λ st, with_callbacks (callbacks st ∖ {[callback]}) st).

Definition set_install_id : M unit :=
  st ← get;
  match user st with
  | None => raise (TypeError "'NoneType' object is not subscriptable")
  | Some u =>
      match defaultInstall u with
      | None => raise (KeyError "defaultInstall")
      | Some default_install =>
          match installs u with
          | None => raise (KeyError "installs")
          | Some installs =>
              match list_find (λ install, raw_unique install = default_install)
                      installs with
              | Some (_, install) =>
                  modify (with_current_installation
                    {| ci_id := Some (raw__id install);
                       ci_unique := Some (raw_unique install);
                       ci_hash := raw_hash install |})
              | None => mret tt
              end
          end
      end
  end.

Definition update_installations (installations : list RawInstall) : M unit :=
  st ← get;
  parsed ← lift (parse_installations installations (last_operating_mode st)
                   (last_pumpOn st) (last_mc1_setpoint st) (last_mc1_supply st)
                   (last_mc1_return st) (last_mc1_opening st));
  modify (with_installations (Some parsed));;
  publish_updates.

(** [len(installations) > 0 and "groups" in installations[0]
     and len(installations[0]["groups"]) > 0] *)
Definition has_groups (installations : list RawInstall) : bool :=
  match installations with
  | install :: _ =>
      match raw_groups install with
      | Some (_ :: _) => true
      | _ => false
      end
  | [] => false
  end.

Definition set_installations (installations : list RawInstall) : M unit :=
  if has_groups installations then
    update_installations installations;;
    set_install_id
  else mret tt.

Definition set_token_data (token_data : TokenData) : M unit :=
  modify (with_token_data (Some token_data)).

(** [user["installs"][0]["user"]["heatcool_auto_01"]], when the three
    tests of [set_user] on it succeed. *)
Definition operating_mode_hint (installs : list RawInstall) : option Z :=
  match installs with
  | install :: _ =>
      match raw_user install with
      | Some u => heatcool_auto_01 u
      | None => None
      end
  | [] => None
  end.

(** [self.installations[0]] *)
Definition first_installation (insts : list Installation) : M Installation :=
  match insts with
  | i :: _ => mret i
  | [] => raise (IndexError "list index out of range")
  end.

Definition set_user (user : User) : M unit :=
  modify (with_user (Some user));;
  match installs user with
  | Some installs =>
      match operating_mode_hint installs with
      | Some mode =>
          modify (with_last_operating_mode (Some mode));;
          log DEBUG ("Setting last operating mode to " +:+ pretty mode)
      | None => mret tt
      end;;
      st ← get;
      match installations st with
      | Some insts =>
          i ← first_installation insts;
          modify (with_last_pumpOn (pumpOn i));;
          modify (with_last_mc1_setpoint (mixed_circuit1_setpoint i));;
          modify (with_last_mc1_supply (mixed_circuit1_supply i));;
          modify (with_last_mc1_return (mixed_circuit1_return i));;
          modify (with_last_mc1_opening (mixed_circuit1_opening i))
      | None => mret tt
      end;;
      set_installations installs
  | None => mret tt
  end.

Definition start_scheduler : M unit :=
  emit (CreateTask "Rehau NEA Smart 2 Scheduler");;
  modify (with_scheduler_task (Some (MkTask "Rehau NEA Smart 2 Scheduler"))).

Definition init_mqtt_client : M unit :=
  log DEBUG "Initializing MQTT client";;
  st ← get;
  match client st with
  | Some _ => disconnect
  | None => mret tt
  end;;
  st ← get;
  emit (ClientNew (client_id st) "websockets");;
  modify (with_client (Some (MkClient (client_id st))));;
  token ← token_item "access_token" td_access_token;
  client_call (UsernamePwSet
    (username st +:+ "?x-amz-customauthorizer-name=app-front") token);;
  client_call TlsSet;;
  client_call EnableLogger;;
  client_call (ReconnectDelaySet 30 300);;
  client_call (Connect "mqtt.nea2aws.aws.rehau.cloud" 443);;
  start_scheduler;;
  start_mqtt_client.

Definition reconnect : M unit := init_mqtt_client.

Definition auth_user : M unit :=
  st ← get;
  '(token_data, user) ←
    external (handlers_auth (auth_username st) (auth_password st));
  set_token_data token_data;;
  set_user user;;
  init_mqtt_client.

Definition refresh_token : M unit :=
  log DEBUG "Refreshing token";;
  try_except
    (refresh_token ← token_item "refresh_token" td_refresh_token;
     token_data ← external (handlers_refresh refresh_token);
     set_token_data token_data;;
     reconnect)
    (λ e,
      match e with
      | MqttClientAuthenticationError _ =>
          Some (log ERROR ("Could not refresh token: " +:+ exn_str e);;
                auth_user)
      | _ => None
      end).

Definition read_user_http : M unit :=
  log DEBUG "Read user";;
  st ← get;
  installs_ids ← get_install_ids;
  token ← token_item "access_token" td_access_token;
  let payload :=
    {| rup_username := auth_username st;
       rup_installs_ids := installs_ids;
       rup_install_hash := get_install_hash st;
       rup_token := token;
       rup_demand := get_install_id st |} in
  try_except
    (user ← external (handlers_read_user_state payload);
     match user with
     | Some user => set_user user
     | None => mret tt
     end)
    (λ e,
      match e with
      | MqttClientCommunicationError _ =>
          Some (log ERROR ("Error while refreshing user state: " +:+ exn_str e))
      | MqttClientAuthenticationError _ =>
          Some (log INFO "Token expired. Refreshing...";;
                refresh_token)
      | _ => None
      end).

Definition refresh_http : M unit :=
  log DEBUG "Refreshing user data";;
  modify (with_number_of_retries 0);;
  send_topics;;
  read_user_http.

Definition refresh_live_data : M unit :=
  log DEBUG "Refreshing live data";;
  send_message INSTALLATION ReqLive;;
  mret tt.

Definition read_user : M unit :=
  log DEBUG "Read user";;
  st ← get;
  token ← token_item "access_token" td_access_token;
  send_message USER_READ
    (UserRead (auth_username st) token (get_install_id st) (auth_username st));;
  mret tt.

Definition refresh : M unit :=
  log DEBUG "Refreshing user data";;
  modify (with_number_of_retries 0);;
  send_topics;;
  read_user.

Definition get_referentials : M Json :=
  st ← get;
  match referentials st with
  | Some r => mret r
  | None => raise (MqttClientError "No referentials found")
  end.

Definition request_server_referentials : M unit :=
  log DEBUG "Requesting referentials from server";;
  st ← get;
  token ← token_item "access_token" td_access_token;
  send_message USER_REFERENTIAL (UserReferential (auth_username st) token);;
  mret tt.

Definition on_connect (rc : Z) : M unit :=
  log DEBUG ("Connected with result code " +:+ pretty rc);;
  modify (with_authenticated true);;
  send_topics;;
  request_server_referentials.

(** [next((i for i in self.installations if i["unique"] == install_id), None)]:
    the first installation with that [unique], and where it is in the
    list. *)
Definition find_installation (install_id : string) (insts : list Installation)
    : option (nat * Installation) :=
  list_find (λ installation, unique installation = install_id) insts.

Definition update_live_data (payload : LivePayload) : M unit :=
  let install_id := live_install_id payload in
  st ← get;
  match installations st with
  | None => raise (TypeError "'NoneType' object is not iterable")
  | Some insts =>
      match find_installation install_id insts with
      | None =>
          raise (MqttClientError ("No installation found for id " +:+ install_id))
      | Some (i, installation) =>
          modify (with_installations
            (Some (<[i := installation_write_live payload installation]> insts)));;
          publish_updates
      end
  end.

(** The three nested loops of [update_channel].  Each returns the list
    with the first matching channel written, or [None] when the loop
    ends without a match. *)
Fixpoint channels_write (channel_id : string) (mode_used setpoint_used : Z)
    (cs : list Channel) : option (list Channel) :=
  match cs with
  | [] => None
  | channel :: cs' =>
      if bool_decide (channel_id_of channel = channel_id)
      then Some (channel_write mode_used setpoint_used channel :: cs')
      else cons channel <$> channels_write channel_id mode_used setpoint_used cs'
  end.

Fixpoint zones_write (channel_id : string) (mode_used setpoint_used : Z)
    (zs : list Zone) : option (list Zone) :=
  match zs with
  | [] => None
  | zone :: zs' =>
      match channels_write channel_id mode_used setpoint_used (channels zone) with
      | Some cs => Some (zone_with_channels cs zone :: zs')
      | None => cons zone <$> zones_write channel_id mode_used setpoint_used zs'
      end
  end.

Fixpoint groups_write (channel_id : string) (mode_used setpoint_used : Z)
    (gs : list Group) : option (list Group) :=
  match gs with
  | [] => None
  | group :: gs' =>
      match zones_write channel_id mode_used setpoint_used (zones group) with
      | Some zs => Some (group_with_zones zs group :: gs')
      | None => cons group <$> groups_write channel_id mode_used setpoint_used gs'
      end
  end.

Definition update_channel (payload : ChannelPayload) : M unit :=
  let channel_id := channel_id payload in
  let install_id := install_id payload in
  let mode_used := mode_used payload in
  let setpoint_used := setpoint_used payload in
  st ← get;
  match installations st with
  | None => raise (TypeError "'NoneType' object is not iterable")
  | Some insts =>
      match find_installation install_id insts with
      | None =>
          raise (MqttClientError ("No installation found for id " +:+ install_id))
      | Some (i, installation) =>
          match groups_write channel_id mode_used setpoint_used
                  (groups installation) with
          | Some gs =>
              modify (with_installations
                (Some (<[i := installation_with_groups gs installation]> insts)));;
              publish_updates
          | None =>
              raise (MqttClientError ("No channel found for id " +:+ channel_id))
          end
      end
  end.

(** [start_scheduler_task] up to its first suspension: the jobs it
    registers, and whether the final loop is left at once or sleeps. *)
Inductive Wait : Type := Finished | Sleeping.

Definition start_scheduler_task : M Wait :=
  log DEBUG "Starting scheduler thread";;
  emit (Crontab "*/1 * * * *" job_refresh_http);;
  emit (Crontab "*/1 * * * *" job_refresh_live_data);;
  emit (Crontab "*/5 * * * *" job_request_server_referentials);;
  st ← get;
  match token_data st with
  | None => raise (TypeError "argument of type 'NoneType' is not iterable")
  | Some td =>
      match td_access_token td with
      | Some _ =>
          log DEBUG "Scheduling token refresh";;
          expires_in ← token_item "expires_in" td_expires_in;
          let expires_in := expires_in - 300 in
          log DEBUG ("Token expires in " +:+ pretty expires_in +:+ " seconds")
      | None => log ERROR "No access token found"
      end
  end;;
  st ← get;
  mret (if stop_scheduler_loop st then Finished else Sleeping).

(** ** The session seen from outside

    The calls that reach the client while a session runs: the callbacks of
    the broker connection, the jobs of the scheduler, the message handlers
    and the observers.  An exception that escapes such a call is lost to
    the caller; the mutations made before it stay. *)
Inductive Input : Type :=
| call_on_connect (rc : Z)
| call_on_disconnect (rc : Z)
| call_refresh_http
| call_refresh_live_data
| call_request_server_referentials
| call_update_live_data (payload : LivePayload)
| call_update_channel (payload : ChannelPayload)
| call_register_callback (callback : nat)
| call_remove_callback (callback : nat).

Definition call (c : Input) : M unit :=
  match c with
  | call_on_connect rc => on_connect rc
  | call_on_disconnect rc => on_disconnect rc
  | call_refresh_http => refresh_http
  | call_refresh_live_data => refresh_live_data
  | call_request_server_referentials => request_server_referentials
  | call_update_live_data payload => update_live_data payload
  | call_update_channel payload => update_channel payload
  | call_register_callback callback => register_callback callback
  | call_remove_callback callback => remove_callback callback
  end.

Definition run (cs : list Input) (st : State) : State :=
  foldl (λ st c, (call c st).1) st cs.

(** The disconnects with a nonzero result code among the calls. *)
Definition is_unexpected_disconnect (c : Input) : bool :=
  match c with
  | call_on_disconnect rc => bool_decide (rc ≠ 0)
  | _ => false
  end.

Fixpoint unexpected_disconnects (cs : list Input) : Z :=
  match cs with
  | [] => 0
  | c :: cs' =>
      (if is_unexpected_disconnect c then 1 else 0) + unexpected_disconnects cs'
  end.

Definition is_refresh_http (c : Input) : bool :=
  match c with call_refresh_http => true | _ => false end.

(** ** Observations on the trace and on the model *)

(** The jobs registered with [aiocron.crontab], in order. *)
Fixpoint crontabs (tr : list Event) : list (string * Job) :=
  match tr with
  | [] => []
  | Crontab spec job :: tr' => (spec, job) :: crontabs tr'
  | _ :: tr' => crontabs tr'
  end.

(** How often the observer [callback] was called. *)
Fixpoint calls_of (callback : nat) (tr : list Event) : nat :=
  match tr with
  | [] => 0%nat
  | Called cb :: tr' =>
      ((if bool_decide (cb = callback) then 1 else 0) + calls_of callback tr')%nat
  | _ :: tr' => calls_of callback tr'
  end.

(** What [stop_scheduler] does to the scheduler task. *)
Definition cancelled (t : option Task) : list Event :=
  match t with
  | Some t => [TaskCancel t]
  | None => []
  end.

(** What [disconnect] does to a connection with the two topics [t1] and
    [t2], up to the cancellation of the scheduler task. *)
Definition teardown_events (t1 t2 : string) : list Event :=
  [Log DEBUG ("Unsubscribing from topic: " +:+ t1); Unsubscribe t1;
   Log DEBUG ("Unsubscribing from topic: " +:+ t2); Unsubscribe t2;
   ClientDisconnect; LoopStop; Log DEBUG "Stopping scheduler"].

(** What [init_mqtt_client] does to set up a connection. *)
Definition connect_events (client_id username token : string) : list Event :=
  [ClientNew client_id "websockets";
   UsernamePwSet (username +:+ "?x-amz-customauthorizer-name=app-front") token;
   TlsSet; EnableLogger; ReconnectDelaySet 30 300;
   Connect "mqtt.nea2aws.aws.rehau.cloud" 443;
   CreateTask "Rehau NEA Smart 2 Scheduler"; LoopStart].

(** No channel of the groups [gs] has the identifier [channel_id]. *)
Definition no_channel (channel_id : string) (gs : list Group) : Prop :=
  ∀ g z c, g ∈ gs → z ∈ zones g → c ∈ channels z →
    channel_id_of c ≠ channel_id.

(** Where a channel sits in the groups of an installation: the groups,
    zones and channels before it, the channel [c] itself in its zone [z]
    and group [g], and those after it. *)
Record ChannelPath := {
  gpre : list Group; g : Group; gpost : list Group;
  zpre : list Zone; z : Zone; zpost : list Zone;
  cpre : list Channel; c : Channel; cpost : list Channel }.

(** [path] leads to the first channel with the identifier [channel_id], in
    the order in which the loops of [update_channel] visit the channels. *)
Definition first_channel (channel_id : string) (gs : list Group)
    (path : ChannelPath) : Prop :=
  gs = gpre path ++ g path :: gpost path ∧
  zones (g path) = zpre path ++ z path :: zpost path ∧
  channels (z path) = cpre path ++ c path :: cpost path ∧
  channel_id_of (c path) = channel_id ∧
  no_channel channel_id (gpre path) ∧
  (∀ z' c', z' ∈ zpre path → c' ∈ channels z' → channel_id_of c' ≠ channel_id) ∧
  (∀ c', c' ∈ cpre path → channel_id_of c' ≠ channel_id).

(** The groups with the channel at [path] written and nothing else
    changed. *)
Definition write_at (mode_used setpoint_used : Z) (path : ChannelPath)
    : list Group :=
  gpre path
  ++ group_with_zones
       (zpre path
        ++ zone_with_channels
             (cpre path
              ++ channel_write mode_used setpoint_used (c path) :: cpost path)
             (z path)
        :: zpost path)
       (g path)
  :: gpost path.

(** What a write leaves alone, entry by entry.  [update_channel] assigns
    the entries [energy_level] and [target_temperature] of one channel and
    [update_live_data] the five telemetry entries of one installation;
    every other entry of the channel, and of the zone, the group and the
    installation around it, is as before. *)
Definition same_channel_but_level_and_target (c c' : Channel) : Prop :=
  channel_id_of c' = channel_id_of c ∧
  current_temperature c' = current_temperature c ∧
  channel_operating_mode c' = channel_operating_mode c ∧
  humidity c' = humidity c ∧
  demand c' = demand c ∧
  setpoints c' = setpoints c.

Definition same_zone_but_channels (z z' : Zone) : Prop :=
  zone_id z' = zone_id z ∧ zone_name z' = zone_name z ∧
  zone_number z' = zone_number z.

Definition same_group_but_zones (g g' : Group) : Prop :=
  group_id g' = group_id g ∧ group_name g' = group_name g.

Definition same_installation_but_groups (i i' : Installation) : Prop :=
  inst_id i' = inst_id i ∧ unique i' = unique i ∧
  global_energy_level i' = global_energy_level i ∧
  connected i' = connected i ∧ operating_mode i' = operating_mode i ∧
  outside_temp i' = outside_temp i ∧
  outsideTempFiltered i' = outsideTempFiltered i ∧
  pumpOn i' = pumpOn i ∧
  mixed_circuit1_setpoint i' = mixed_circuit1_setpoint i ∧
  mixed_circuit1_supply i' = mixed_circuit1_supply i ∧
  mixed_circuit1_return i' = mixed_circuit1_return i ∧
  mixed_circuit1_opening i' = mixed_circuit1_opening i.

Definition same_installation_but_live (i i' : Installation) : Prop :=
  inst_id i' = inst_id i ∧ unique i' = unique i ∧
  global_energy_level i' = global_energy_level i ∧
  connected i' = connected i ∧ operating_mode i' = operating_mode i ∧
  groups i' = groups i ∧
  outside_temp i' = outside_temp i ∧
  outsideTempFiltered i' = outsideTempFiltered i.

(** The channels of an installation, in the order in which the loops of
    [update_channel] visit them, and the five telemetry entries of an
    installation. *)
Definition channels_of (i : Installation) : list Channel :=
  concat ((λ g, concat (channels <$> zones g)) <$> groups i).

Definition live_data_of (i : Installation) : Z * Z * Z * Z * Z :=
  (pumpOn i, mixed_circuit1_setpoint i, mixed_circuit1_supply i,
   mixed_circuit1_return i, mixed_circuit1_opening i).

(** Modelled from the spec: [parse_installations] is a function of
    [handlers.py], which is not part of the sources at hand.  The spec says
    of it that it builds the installations from the raw installs "injecting
    the carried-over operating mode and live-telemetry defaults into fields
    the raw payload does not carry": installation by installation, a
    telemetry entry is the raw one when the raw install carries it and the
    carried-over default otherwise. *)
Definition carries_over (pump setpoint supply ret opening : Z)
    (raw : RawInstall) (i : Installation) : Prop :=
  pumpOn i = default pump (raw_pumpOn raw) ∧
  mixed_circuit1_setpoint i = default setpoint (raw_mixed_circuit1_setpoint raw) ∧
  mixed_circuit1_supply i = default supply (raw_mixed_circuit1_supply raw) ∧
  mixed_circuit1_return i = default ret (raw_mixed_circuit1_return raw) ∧
  mixed_circuit1_opening i = default opening (raw_mixed_circuit1_opening raw).

Definition parse_installations_injects_defaults : Prop :=
  ∀ raws mode pump setpoint supply ret opening parsed,
    parse_installations raws mode pump setpoint supply ret opening = inr parsed →
    Forall2 (carries_over pump setpoint supply ret opening) raws parsed.

(** ** The constructor and the accessors

    [__init__] with the identifier that [generate_uuid] returned and the
    state of the outside at that time; the attribute [hass] is used by
    [on_message_callback] only and is left out. *)
Definition __init__ (username password uuid : string) (w : W) : State :=
  Build_State
    "app"                          (* username *)
    "appuserplatform"              (* password *)
    username                       (* auth_username *)
    password                       (* auth_password *)
    None                           (* token_data *)
    None                           (* user *)
    None                           (* installations *)
    false                          (* authenticated *)
    None                           (* referentials *)
    None                           (* transaction_id *)
    None                           (* last_operating_mode *)
    0 0 0 0 0                      (* last_pumpOn and the last_mc1 values *)
    {| ci_id := None; ci_unique := None; ci_hash := None |}
    ("app-" +:+ uuid)              (* client_id *)
    None                           (* client *)
    false                          (* stop_scheduler_loop *)
    None                           (* scheduler_task *)
    0                              (* number_of_retries *)
    0                              (* number_of_message_failures *)
    ∅                              (* callbacks *)
    w [].

Definition get_user (st : State) : option User := user st.

Definition with_transaction_id (v : option string) (st : State) : State :=
  {| username := username st; password := password st;
     auth_username := auth_username st; auth_password := auth_password st;
     token_data := token_data st; user := user st;
     installations := installations st; authenticated := authenticated st;
     referentials := referentials st; transaction_id := v;
     last_operating_mode := last_operating_mode st;
     last_pumpOn := last_pumpOn st;
     last_mc1_setpoint := last_mc1_setpoint st;
     last_mc1_supply := last_mc1_supply st;
     last_mc1_return := last_mc1_return st;
     last_mc1_opening := last_mc1_opening st;
     current_installation := current_installation st;
     client_id := client_id st; client := client st;
     stop_scheduler_loop := stop_scheduler_loop st;
     scheduler_task := scheduler_task st;
     number_of_retries := number_of_retries st;
     number_of_message_failures := number_of_message_failures st;
     callbacks := callbacks st; world := world st; trace := trace st |}.

Definition get_transaction_id : M (option string) :=
  st ← get;
  match transaction_id st with
  | Some t => mret (Some t)
  | None =>
      match user st with
      | None => raise (TypeError "argument of type 'NoneType' is not iterable")
      | Some u =>
          modify (with_transaction_id (transactionId u));;
          st ← get;
          mret (transaction_id st)
      end
  end.

(** A topic without an opening brace holds no placeholder. *)
Fixpoint no_open_brace (s : string) : bool :=
  match s with
  | EmptyString => true
  | String c s' => negb (Ascii.eqb c "{") && no_open_brace s'
  end.

(** ** Exceptions that a method can raise *)

(** The exceptions of Python itself, as opposed to those of
    [exceptions.py]. *)
Definition is_builtin (e : Exn) : bool :=
  match e with
  | MqttClientAuthenticationError _ | MqttClientCommunicationError _
  | MqttClientError _ => false
  | _ => true
  end.

(** Every exception that [m] raises satisfies [P]. *)
Definition raises_only {A : Type} (P : Exn → Prop) (m : M A) : Prop :=
  ∀ st st' e, m st = (st', inl e) → P e.

(** ** Attributes that a method leaves alone *)

(** The method [m] returns the client with the attribute [f] as it was,
    whether it returns or raises. *)
Definition keeps {A B : Type} (f : State → B) (m : M A) : Prop :=
  ∀ st, f (m st).1 = f st.

(** [f] reads neither the trace nor the world. *)
Definition inward {B : Type} (f : State → B) : Prop :=
  (∀ tr st, f (with_trace tr st) = f st) ∧ (∀ w st, f (with_world w st) = f st).

End Client.

(** ** A sample deployment

    One account with one installation, used to run the model on concrete
    inputs.  The world is the condition of the identity service. *)
Inductive Service : Type := Online | Offline | RefreshTokenExpired.

Definition sample_token : TokenData :=
  {| td_access_token := Some "access-1";
     td_refresh_token := Some "refresh-1";
     td_expires_in := Some 3600 |}.

Definition sample_raw_install : @RawInstall unit :=
  {| raw__id := "6001"; raw_unique := "abc"; raw_hash := None;
     raw_user := Some {| heatcool_auto_01 := Some 2 |};
     raw_groups := Some [()];
     raw_pumpOn := None;
     raw_mixed_circuit1_setpoint := Some 310;
     raw_mixed_circuit1_supply := None;
     raw_mixed_circuit1_return := None;
     raw_mixed_circuit1_opening := None;
     raw_rest := () |}.

Definition sample_user : @User unit :=
  {| installs := Some [sample_raw_install];
     defaultInstall := Some "abc";
     transactionId := None |}.

Definition sample_parse_install (pump setpoint supply ret opening : Z)
    (raw : @RawInstall unit) : Installation :=
  {| inst_id := raw__id raw; unique := raw_unique raw;
     global_energy_level := 0; connected := true; operating_mode := 0;
     groups := []; outside_temp := 0; outsideTempFiltered := 0;
     pumpOn := default pump (raw_pumpOn raw);
     mixed_circuit1_setpoint := default setpoint (raw_mixed_circuit1_setpoint raw);
     mixed_circuit1_supply := default supply (raw_mixed_circuit1_supply raw);
     mixed_circuit1_return := default ret (raw_mixed_circuit1_return raw);
     mixed_circuit1_opening := default opening (raw_mixed_circuit1_opening raw) |}.

Definition sample_externals : @Externals Service unit :=
  {| LISTEN := "client/{email}";
     LISTEN_TO_CONTROLLER := "client/{id}/realtime";
     INSTALLATION := "client/{id}";
     USER_READ := "server/user/read";
     USER_REFERENTIAL := "server/user/referential";
     json_dumps := λ m,
       match m with
       | ReqLive => "{'11': 'REQ_LIVE', '12': {'DATA': '1'}}"
       | _ => "{}"
       end;
     handlers_auth := λ _ _ w,
       match w with
       | Offline => (w, inl (MqttClientCommunicationError "offline"))
       | _ => (Online, inr (sample_token, sample_user))
       end;
     handlers_refresh := λ _ w,
       match w with
       | Online => (w, inr sample_token)
       | Offline => (w, inl (MqttClientCommunicationError "offline"))
       | RefreshTokenExpired =>
           (w, inl (MqttClientAuthenticationError "invalid_grant"))
       end;
     handlers_read_user_state := λ _ w,
       match w with
       | Online => (w, inr (Some sample_user))
       | Offline => (w, inl (MqttClientCommunicationError "offline"))
       | RefreshTokenExpired =>
           (w, inl (MqttClientAuthenticationError "token expired"))
       end;
     parse_installations := λ raws _ pump setpoint supply ret opening,
       inr (sample_parse_install pump setpoint supply ret opening <$> raws);
     client_publish := λ _ _ w,
       match w with
       | Online => (w, (0, 1))
       | _ => (w, (4, 1))
       end |}.

Definition sample_channel (id : string) (target level : Z) : Channel :=
  {| channel_id_of := id; target_temperature := target;
     current_temperature := 205; energy_level := level;
     channel_operating_mode := 0; humidity := 40; demand := 0;
     setpoints :=
       {| sp_cooling := {| cooling_normal := 240; cooling_reduced := 260 |};
          sp_heating :=
            {| heating_normal := 210; heating_reduced := 190;
               heating_standby := 160 |};
          sp_min := 50; sp_max := 300 |} |}.

Definition sample_installation : Installation :=
  {| inst_id := "6001"; unique := "abc"; global_energy_level := 0;
     connected := true; operating_mode := 0;
     groups :=
       [ {| group_id := "g1"; group_name := "Ground floor";
            zones :=
              [ {| zone_id := "z1"; zone_name := "Hall"; zone_number := 0;
                   channels := [sample_channel "c1" 210 0] |};
                {| zone_id := "z2"; zone_name := "Kitchen"; zone_number := 1;
                   channels := [sample_channel "c2" 200 1;
                                sample_channel "c3" 190 2] |} ] |} ];
     outside_temp := 80; outsideTempFiltered := 82;
     pumpOn := 1; mixed_circuit1_setpoint := 300;
     mixed_circuit1_supply := 295; mixed_circuit1_return := 270;
     mixed_circuit1_opening := 55 |}.

(** The session after authentication, with two observers registered. *)
Definition sample_state (w : Service) : @State Service unit :=
  {| username := "app"; password := "appuserplatform";
     auth_username := "user@example.org"; auth_password := "secret";
     token_data := Some sample_token; user := Some sample_user;
     installations := Some [sample_installation];
     authenticated := true; referentials := None; transaction_id := None;
     last_operating_mode := None; last_pumpOn := 0; last_mc1_setpoint := 0;
     last_mc1_supply := 0; last_mc1_return := 0; last_mc1_opening := 0;
     current_installation :=
       {| ci_id := Some "6001"; ci_unique := Some "abc"; ci_hash := None |};
     client_id := "app-0"; client := Some (MkClient "app-0");
     stop_scheduler_loop := false;
     scheduler_task := Some (MkTask "Rehau NEA Smart 2 Scheduler");
     number_of_retries := 0; number_of_message_failures := 0;
     callbacks := {[ 1%nat; 2%nat ]}; world := w; trace := [] |}.

(** A second installation of the account, with telemetry of its own; its
    raw install carries no telemetry entry. *)
Definition sample_raw_install_2 : @RawInstall unit :=
  {| raw__id := "6002"; raw_unique := "def"; raw_hash := None;
     raw_user := None;
     raw_groups := Some [()];
     raw_pumpOn := None;
     raw_mixed_circuit1_setpoint := None;
     raw_mixed_circuit1_supply := None;
     raw_mixed_circuit1_return := None;
     raw_mixed_circuit1_opening := None;
     raw_rest := () |}.

Definition sample_installation_2 : Installation :=
  {| inst_id := "6002"; unique := "def"; global_energy_level := 0;
     connected := true; operating_mode := 0; groups := [];
     outside_temp := 80; outsideTempFiltered := 82;
     pumpOn := 0; mixed_circuit1_setpoint := 222;
     mixed_circuit1_supply := 218; mixed_circuit1_return := 205;
     mixed_circuit1_opening := 10 |}.

Definition sample_user_two_installs : @User unit :=
  {| installs := Some [sample_raw_install; sample_raw_install_2];
     defaultInstall := Some "abc";
     transactionId := None |}.

(** A channel update and a live-data update for the sample. *)
Definition c2_payload : ChannelPayload :=
  {| channel_id := "c2"; install_id := "abc"; mode_used := 3;
     setpoint_used := 215 |}.

Definition live_payload : LivePayload :=
  {| live_install_id := "abc"; live_pumpOn := 0;
     live_mixed_circuit1_setpoint := 305; live_mixed_circuit1_supply := 299;
     live_mixed_circuit1_return := 275; live_mixed_circuit1_opening := 60 |}.

(** ** Properties *)

(** *** Running the monad *)

Ltac exec :=
  repeat (cbv beta iota zeta delta
            [mbind M_bind mret M_ret get modify emit log raise lift external
             client_call token_item try_except];
          cbn -[String.append pretty re_sub replace disconnect stop_scheduler
               publish_updates send_topics set_install_id set_installations
               init_mqtt_client auth_user read_user_http]).

(** Two states are compared attribute by attribute, once the state they
    are built from has been taken apart. *)
Ltac setters :=
  cbv beta iota delta
    [with_token_data with_user with_installations with_authenticated
     with_last_operating_mode with_last_pumpOn with_last_mc1_setpoint
     with_last_mc1_supply with_last_mc1_return with_last_mc1_opening
     with_current_installation with_client with_stop_scheduler_loop
     with_scheduler_task with_number_of_retries
     with_number_of_message_failures with_callbacks with_world with_trace
     with_transaction_id
     username password auth_username auth_password token_data user
     installations authenticated referentials transaction_id
     last_operating_mode last_pumpOn last_mc1_setpoint last_mc1_supply
     last_mc1_return last_mc1_opening current_installation client_id client
     stop_scheduler_loop scheduler_task number_of_retries
     number_of_message_failures callbacks world trace].

Create HintDb keeps.

Section Properties.

Context {W Json : Type} {E : @Externals W Json}.

Implicit Types (st : @State W Json).

Lemma bind_eq {A B : Type} (m : M A) (f : A → M B) st :
  (m ≫= f) st =
  match m st with
  | (st', inl e) => (st', inl e)
  | (st', inr a) => f a st'
  end.
Proof. reflexivity. Qed.

Lemma for_each_emit {X : Type} (ev : X → Event) (l : list X) st :
  for_each l (λ x, emit (ev x)) st = (with_trace (trace st ++ (ev <$> l)) st, inr ()).
Proof.
  revert st. induction l as [|x l IH]; intros st; cbn [for_each fmap list_fmap].
  - rewrite app_nil_r. by destruct st.
  - rewrite bind_eq. exec. rewrite IH. destruct st; cbn. by rewrite <- app_assoc.
Qed.

Lemma publish_updates_eq st :
  publish_updates st =
  (with_trace (trace st ++ (Called <$> elements (callbacks st))) st, inr ()).
Proof. unfold publish_updates. rewrite bind_eq. exec. apply for_each_emit. Qed.

(** *** Topic resolution *)

(** C1.  A placeholder written in another case is matched, because of
    [re.I], and then looked up as it was written in [replacements], whose
    keys are in lower case: the substitution raises [KeyError] instead of
    replacing the token. *)
Theorem replace_wildcards_other_case_raises st (rest : string) :
  replace_wildcards "{ID}" st = (st, inl (KeyError "{ID}")) ∧
  replace_wildcards ("{ID}" +:+ rest) st = (st, inl (KeyError "{ID}")) ∧
  replace_wildcards ("client/{Email}" +:+ rest) st =
    (st, inl (KeyError "{Email}")).
Proof.
  unfold replace_wildcards, re_sub. split_and!; f_equal.
Qed.

(** *** Publishing *)

(** C8.  [send_message] publishes once and returns the message id.  A
    publish that fails adds one to [number_of_message_failures], a publish
    that succeeds sets it to 0; when the count after a failure exceeds 5
    the failure is reported by one entry of level ERROR in the log, and the
    count stays as it is. *)
Theorem send_message_counts_failures st (topic : string) (message : Message)
    (t : string) (c : Client) (result mid : Z) (w' : W) :
  (replace_wildcards topic st).2 = inr t →
  client st = Some c →
  client_publish t (json_dumps message) (world st) = (w', (result, mid)) →
  let n := number_of_message_failures st in
  let n' := if bool_decide (result = MQTT_ERR_SUCCESS) then 0 else n + 1 in
  let report :=
    if bool_decide (result ≠ MQTT_ERR_SUCCESS ∧ n + 1 > 5)
    then [Log ERROR ("Error sending message " +:+ t +:+ ". Failed "
                     +:+ pretty (n + 1) +:+ " times. Data: "
                     +:+ json_dumps message)]
    else [] in
  send_message topic message st =
  (with_number_of_message_failures n'
     (with_world w'
        (with_trace
           (trace st
            ++ [Log DEBUG ("Sending message " +:+ t +:+ ": "
                           +:+ json_dumps message);
                Publish t (json_dumps message)]
            ++ report) st)),
   inr mid).
Proof.
  intros Ht Hc Hp. unfold send_message, replace_wildcards in *. cbn in Ht.
  exec. rewrite Ht. exec. rewrite Hc. exec. rewrite Hp. exec.
  destruct st; cbn in *.
  repeat case_bool_decide; exec; try tauto; try lia;
    rewrite <- ?app_assoc; reflexivity.
Qed.

(** *** The observers *)

Lemma calls_of_app (cb : nat) (tr1 tr2 : list Event) :
  calls_of cb (tr1 ++ tr2) = (calls_of cb tr1 + calls_of cb tr2)%nat.
Proof.
  induction tr1 as [|ev tr1 IH]; [done|].
  destruct ev; cbn; rewrite ?IH; lia.
Qed.

Lemma calls_of_called (cb : nat) (l : list nat) :
  NoDup l → calls_of cb (Called <$> l) = if bool_decide (cb ∈ l) then 1%nat else 0%nat.
Proof.
  induction 1 as [|x l Hx Hl IH]; [done|].
  cbn. rewrite IH. destruct (decide (x = cb)) as [->|Hne].
  - rewrite bool_decide_eq_true_2 by done.
    rewrite (bool_decide_eq_false_2 (cb ∈ l)) by done.
    by rewrite bool_decide_eq_true_2 by apply list_elem_of_here.
  - rewrite bool_decide_eq_false_2 by done. cbn.
    apply (f_equal (λ b : bool, if b then 1%nat else 0%nat)), bool_decide_ext.
    rewrite elem_of_cons. split; [by right|]. by intros [->|?].
Qed.

(** C9.  Registering an observer a second time changes nothing, a publish
    then calls it exactly once, and removing an observer that is not
    registered leaves the client as it was. *)
Theorem callbacks_are_a_set st (cb : nat) :
  let st1 := (register_callback cb st).1 in
  let st2 := (register_callback cb st1).1 in
  st2 = st1 ∧
  calls_of cb (trace (publish_updates st2).1) = (calls_of cb (trace st) + 1)%nat ∧
  (cb ∉ callbacks st → remove_callback cb st = (st, inr ())).
Proof.
  cbn. split_and!.
  - destruct st; setters. f_equal.
    by rewrite <- (assoc_L (∪)), (idemp_L (∪)).
  - rewrite publish_updates_eq. cbn. rewrite calls_of_app.
    rewrite calls_of_called by apply NoDup_elements.
    rewrite bool_decide_eq_true_2; [done|].
    by apply elem_of_elements, elem_of_union_r, elem_of_singleton_2.
  - intros Hcb. unfold remove_callback, modify. f_equal.
    destruct st; setters. f_equal.
    by apply difference_disjoint_L, disjoint_singleton_r.
Qed.

(** *** The installation store *)

Lemma find_installation_first (id : string) (ipre ipost : list Installation)
    (inst : Installation) :
  (∀ x, x ∈ ipre → unique x ≠ id) → unique inst = id →
  find_installation id (ipre ++ inst :: ipost) = Some (length ipre, inst).
Proof.
  intros Hpre Hinst. unfold find_installation.
  rewrite list_find_app_r by (apply list_find_None, Forall_forall, Hpre).
  cbn. by rewrite decide_True.
Qed.

Lemma find_installation_none (id : string) (insts : list Installation) :
  (∀ x, x ∈ insts → unique x ≠ id) → find_installation id insts = None.
Proof. intros H. by apply list_find_None, Forall_forall. Qed.

Lemma insert_middle {A : Type} (l1 l2 : list A) (x y : A) :
  <[length l1 := y]> (l1 ++ x :: l2) = l1 ++ y :: l2.
Proof.
  replace (length l1) with (length l1 + 0)%nat by lia. by rewrite insert_app_r.
Qed.

Lemma first_installation_split (id : string) (insts : list Installation) :
  (∀ x, x ∈ insts → unique x ≠ id) ∨
  (∃ ipre inst ipost,
     insts = ipre ++ inst :: ipost ∧
     (∀ x, x ∈ ipre → unique x ≠ id) ∧ unique inst = id).
Proof.
  induction insts as [|a insts IH].
  - left. intros x Hx. by apply elem_of_nil in Hx.
  - destruct (decide (unique a = id)) as [Ha|Ha].
    + right. exists [], a, insts. split_and!; [done| |done].
      intros x Hx. by apply elem_of_nil in Hx.
    + destruct IH as [Hno|(ipre & inst & ipost & -> & Hpre & Hinst)].
      * left. intros x [->|Hx]%elem_of_cons; auto.
      * right. exists (a :: ipre), inst, ipost. split_and!; [done| |done].
        intros x [->|Hx]%elem_of_cons; auto.
Qed.

(** C6.  [update_live_data] with an [install_id] that no installation has
    raises [MqttClientError] and leaves the client as it was: no observer
    is called and no installation changes.  Otherwise the list holds a
    first installation with that [unique]; after the call its entries
    [pumpOn], [mixed_circuit1_setpoint], [mixed_circuit1_supply],
    [mixed_circuit1_return] and [mixed_circuit1_opening] are those of the
    payload, its eight other entries and the installations before and
    after it are as they were, and every observer has been called once.
    Every list of installations is in one of the two cases. *)
Theorem update_live_data_spec st (payload : LivePayload)
    (insts : list Installation) :
  installations st = Some insts →
  ((∀ x, x ∈ insts → unique x ≠ live_install_id payload) →
   update_live_data payload st =
   (st, inl (MqttClientError ("No installation found for id "
                              +:+ live_install_id payload)))) ∧
  (∀ ipre inst ipost,
     insts = ipre ++ inst :: ipost →
     (∀ x, x ∈ ipre → unique x ≠ live_install_id payload) →
     unique inst = live_install_id payload →
     ∃ inst',
       update_live_data payload st =
       (with_trace (trace st ++ (Called <$> elements (callbacks st)))
          (with_installations (Some (ipre ++ inst' :: ipost)) st),
        inr ()) ∧
       pumpOn inst' = live_pumpOn payload ∧
       mixed_circuit1_setpoint inst' = live_mixed_circuit1_setpoint payload ∧
       mixed_circuit1_supply inst' = live_mixed_circuit1_supply payload ∧
       mixed_circuit1_return inst' = live_mixed_circuit1_return payload ∧
       mixed_circuit1_opening inst' = live_mixed_circuit1_opening payload ∧
       same_installation_but_live inst inst') ∧
  ((∀ x, x ∈ insts → unique x ≠ live_install_id payload) ∨
   (∃ ipre inst ipost,
      insts = ipre ++ inst :: ipost ∧
      (∀ x, x ∈ ipre → unique x ≠ live_install_id payload) ∧
      unique inst = live_install_id payload)).
Proof.
  intros Hinsts. split_and!.
  - intros Hnone. unfold update_live_data. exec. rewrite Hinsts.
    by rewrite find_installation_none.
  - intros ipre inst ipost -> Hpre Hinst.
    exists (installation_write_live payload inst). split.
    + unfold update_live_data. exec.
      rewrite Hinsts, find_installation_first by done.
      exec. rewrite publish_updates_eq, insert_middle.
      destruct st; reflexivity.
    + by repeat split.
  - apply first_installation_split.
Qed.

Lemma channels_write_split (cid : string) (mu su : Z) (cs : list Channel) :
  (channels_write cid mu su cs = None ∧
   ∀ c', c' ∈ cs → channel_id_of c' ≠ cid) ∨
  (∃ cpre c cpost,
     cs = cpre ++ c :: cpost ∧ channel_id_of c = cid ∧
     (∀ c', c' ∈ cpre → channel_id_of c' ≠ cid) ∧
     channels_write cid mu su cs = Some (cpre ++ channel_write mu su c :: cpost)).
Proof.
  induction cs as [|c cs IH]; cbn.
  - left. split; [done|]. intros c' Hc'. by apply elem_of_nil in Hc'.
  - case_bool_decide as Hc.
    + right. exists [], c, cs. split_and!; try done.
      intros c' Hc'. by apply elem_of_nil in Hc'.
    + destruct IH as [[-> Hno]|(cpre & c0 & cpost & -> & Hc0 & Hpre & ->)].
      * left. split; [done|]. intros c' [->|Hc']%elem_of_cons; auto.
      * right. exists (c :: cpre), c0, cpost. split_and!; try done.
        intros c' [->|Hc']%elem_of_cons; auto.
Qed.

Lemma zones_write_split (cid : string) (mu su : Z) (zs : list Zone) :
  (zones_write cid mu su zs = None ∧
   ∀ z' c', z' ∈ zs → c' ∈ channels z' → channel_id_of c' ≠ cid) ∨
  (∃ zpre z zpost cpre c cpost,
     zs = zpre ++ z :: zpost ∧ channels z = cpre ++ c :: cpost ∧
     channel_id_of c = cid ∧
     (∀ z' c', z' ∈ zpre → c' ∈ channels z' → channel_id_of c' ≠ cid) ∧
     (∀ c', c' ∈ cpre → channel_id_of c' ≠ cid) ∧
     zones_write cid mu su zs =
     Some (zpre ++ zone_with_channels (cpre ++ channel_write mu su c :: cpost) z
                :: zpost)).
Proof.
  induction zs as [|z zs IH]; cbn.
  - left. split; [done|]. intros z' c' Hz'. by apply elem_of_nil in Hz'.
  - destruct (channels_write_split cid mu su (channels z))
      as [[-> Hno]|(cpre & c & cpost & Hcs & Hc & Hpre & ->)].
    + destruct IH as [[-> Hnone]
        |(zpre & z0 & zpost & cpre & c & cpost & -> & Hcs & Hc & Hz & Hpre & ->)].
      * left. split; [done|]. intros z' c' [->|Hz']%elem_of_cons; eauto.
      * right. exists (z :: zpre), z0, zpost, cpre, c, cpost.
        split_and!; try done. intros z' c' [->|Hz']%elem_of_cons; eauto.
    + right. exists [], z, zs, cpre, c, cpost. split_and!; try done.
      intros z' c' Hz'. by apply elem_of_nil in Hz'.
Qed.

Lemma groups_write_split (cid : string) (mu su : Z) (gs : list Group) :
  (groups_write cid mu su gs = None ∧ no_channel cid gs) ∨
  (∃ path, first_channel cid gs path ∧
           groups_write cid mu su gs = Some (write_at mu su path)).
Proof.
  induction gs as [|g gs IH]; cbn.
  - left. split; [done|]. intros g' z' c' Hg'. by apply elem_of_nil in Hg'.
  - destruct (zones_write_split cid mu su (zones g))
      as [[-> Hno]
         |(zpre & z & zpost & cpre & c & cpost & Hzs & Hcs & Hc & Hz & Hpre & ->)].
    + destruct IH as [[-> Hnone]|([gpre g0 gpost zpre z zpost cpre c cpost]
                                  & Hpath & ->)].
      * left. split; [done|]. intros g' z' c' [->|Hg']%elem_of_cons; eauto.
      * right.
        exists (Build_ChannelPath (g :: gpre) g0 gpost zpre z zpost cpre c cpost).
        destruct Hpath as (-> & ? & ? & ? & Hg & ? & ?).
        split; [|done]. unfold first_channel; cbn in *. split_and!; try done.
        intros g' z' c' [->|Hg']%elem_of_cons; eauto.
    + right. exists (Build_ChannelPath [] g gs zpre z zpost cpre c cpost).
      split; [|done]. unfold first_channel; cbn. split_and!; try done.
      intros g' z' c' Hg'. by apply elem_of_nil in Hg'.
Qed.

(** C3.  When the first installation with the [unique] of the payload has
    a channel with its [channel_id], [update_channel] returns with every
    observer called once and with, in place of the first such channel
    [c path], a channel [c'] whose [energy_level] is [mode_used] and whose
    [target_temperature] is [setpoint_used]; the six other entries of the
    channel, the other channels of its zone, the other zones of its group,
    the other groups and entries of the installation and the other
    installations are as they were.  When no installation or no channel
    matches, it raises [MqttClientError] and leaves the client as it was:
    no observer is called and no installation changes.  Every list of
    installations is in one of the three cases. *)
Theorem update_channel_spec st (payload : ChannelPayload)
    (insts : list Installation) :
  installations st = Some insts →
  (∀ ipre inst ipost,
     insts = ipre ++ inst :: ipost →
     (∀ x, x ∈ ipre → unique x ≠ install_id payload) →
     unique inst = install_id payload →
     (∃ g z c, g ∈ groups inst ∧ z ∈ zones g ∧ c ∈ channels z ∧
               channel_id_of c = channel_id payload) →
     ∃ path inst' g' z' c',
       first_channel (channel_id payload) (groups inst) path ∧
       update_channel payload st =
       (with_trace (trace st ++ (Called <$> elements (callbacks st)))
          (with_installations (Some (ipre ++ inst' :: ipost)) st),
        inr ()) ∧
       energy_level c' = mode_used payload ∧
       target_temperature c' = setpoint_used payload ∧
       same_channel_but_level_and_target (c path) c' ∧
       channels z' = cpre path ++ c' :: cpost path ∧
       same_zone_but_channels (z path) z' ∧
       zones g' = zpre path ++ z' :: zpost path ∧
       same_group_but_zones (g path) g' ∧
       groups inst' = gpre path ++ g' :: gpost path ∧
       same_installation_but_groups inst inst') ∧
  ((∀ x, x ∈ insts → unique x ≠ install_id payload) →
   update_channel payload st =
   (st, inl (MqttClientError ("No installation found for id "
                              +:+ install_id payload)))) ∧
  (∀ ipre inst ipost,
     insts = ipre ++ inst :: ipost →
     (∀ x, x ∈ ipre → unique x ≠ install_id payload) →
     unique inst = install_id payload →
     no_channel (channel_id payload) (groups inst) →
     update_channel payload st =
     (st, inl (MqttClientError ("No channel found for id "
                                +:+ channel_id payload)))) ∧
  ((∀ x, x ∈ insts → unique x ≠ install_id payload) ∨
   (∃ ipre inst ipost,
      insts = ipre ++ inst :: ipost ∧
      (∀ x, x ∈ ipre → unique x ≠ install_id payload) ∧
      unique inst = install_id payload ∧
      (no_channel (channel_id payload) (groups inst) ∨
       (∃ g z c, g ∈ groups inst ∧ z ∈ zones g ∧ c ∈ channels z ∧
                 channel_id_of c = channel_id payload)))).
Proof.
  intros Hinsts. split_and!.
  - intros ipre inst ipost -> Hpre Hinst (g0 & z0 & c0 & Hg & Hz & Hc & Hid).
    destruct (groups_write_split (channel_id payload) (mode_used payload)
                (setpoint_used payload) (groups inst))
      as [[_ Hno]|(path & Hpath & Hw)].
    { by destruct (Hno g0 z0 c0). }
    exists path,
      (installation_with_groups
         (write_at (mode_used payload) (setpoint_used payload) path) inst),
      (group_with_zones
         (zpre path
          ++ zone_with_channels
               (cpre path
                ++ channel_write (mode_used payload) (setpoint_used payload)
                     (c path) :: cpost path)
               (z path)
          :: zpost path)
         (g path)),
      (zone_with_channels
         (cpre path
          ++ channel_write (mode_used payload) (setpoint_used payload)
               (c path) :: cpost path)
         (z path)),
      (channel_write (mode_used payload) (setpoint_used payload) (c path)).
    split; [done|]. split.
    + unfold update_channel. exec.
      rewrite Hinsts, find_installation_first, Hw by done.
      exec. rewrite publish_updates_eq, insert_middle.
      destruct st; reflexivity.
    + by repeat split.
  - intros Hnone. unfold update_channel. exec. rewrite Hinsts.
    by rewrite find_installation_none.
  - intros ipre inst ipost -> Hpre Hinst Hno. unfold update_channel. exec.
    rewrite Hinsts, find_installation_first by done.
    destruct (groups_write_split (channel_id payload) (mode_used payload)
                (setpoint_used payload) (groups inst))
      as [[-> _]|(path & Hpath & _)]; [done|].
    destruct Hpath as (Hgs & Hzs & Hcs & Hid & _).
    destruct (Hno (g path) (z path) (c path)); [| | |done].
    + rewrite Hgs. set_solver.
    + rewrite Hzs. set_solver.
    + rewrite Hcs. set_solver.
  - destruct (first_installation_split (install_id payload) insts)
      as [Hno|(ipre & inst & ipost & -> & Hpre & Hinst)]; [by left|].
    right. exists ipre, inst, ipost. split_and!; try done.
    destruct (groups_write_split (channel_id payload) 0 0 (groups inst))
      as [[_ Hno]|(path & (Hgs & Hzs & Hcs & Hid & _) & _)]; [by left|].
    right. exists (g path), (z path), (c path). split_and!; [| | |done].
    + rewrite Hgs. set_solver.
    + rewrite Hzs. set_solver.
    + rewrite Hcs. set_solver.
Qed.

(** *** Attributes that a method leaves alone *)

Section Keeps.

Context {B : Type} (f : @State W Json → B) (Hf : inward f).

Lemma keeps_ret {A : Type} (a : A) : keeps f (mret a).
Proof. by intros st. Qed.

Lemma keeps_raise {A : Type} (e : Exn) : keeps f (raise (A := A) e).
Proof. by intros st. Qed.

Lemma keeps_get : keeps f get.
Proof. by intros st. Qed.

Lemma keeps_lift {A : Type} (r : Exn + A) : keeps f (lift r).
Proof. by intros st. Qed.

Lemma keeps_modify (g : State → State) :
  (∀ st, f (g st) = f st) → keeps f (modify g).
Proof. intros Hg st. apply Hg. Qed.

Lemma keeps_bind {A C : Type} (m : M A) (k : A → M C) :
  keeps f m → (∀ a, keeps f (k a)) → keeps f (m ≫= k).
Proof.
  intros Hm Hk st. rewrite bind_eq. specialize (Hm st).
  destruct (m st) as [st' [e|a]]; cbn in *; [done|]. by rewrite Hk.
Qed.

Lemma keeps_try_except {A : Type} (body : M A) (handler : Exn → option (M A)) :
  keeps f body → (∀ e h, handler e = Some h → keeps f h) →
  keeps f (try_except body handler).
Proof.
  intros Hm Hh st. unfold try_except. specialize (Hm st).
  destruct (body st) as [st' [e|a]]; cbn in *; [|done].
  destruct (handler e) as [h|] eqn:He; [|done]. by rewrite (Hh e h He).
Qed.

Lemma keeps_for_each {X : Type} (l : list X) (body : X → M unit) :
  (∀ x, keeps f (body x)) → keeps f (for_each l body).
Proof.
  intros Hbody. induction l as [|x l IH]; cbn [for_each].
  - apply keeps_ret.
  - apply keeps_bind; [apply Hbody|by intros _].
Qed.

Lemma keeps_emit (ev : Event) : keeps f (emit ev).
Proof. intros st. apply Hf. Qed.

Lemma keeps_log (lvl : Level) (msg : string) : keeps f (log lvl msg).
Proof. apply keeps_emit. Qed.

Lemma keeps_external {R : Type} (h : W → W * (Exn + R)) : keeps f (external h).
Proof. intros st. unfold external. destruct (h (world st)). apply Hf. Qed.

Lemma keeps_client_call (ev : Event) : keeps f (client_call ev).
Proof.
  intros st. unfold client_call. exec. destruct (client st); [apply Hf|done].
Qed.

Lemma keeps_token_item {A : Type} (key : string) (field : TokenData → option A) :
  keeps f (token_item key field).
Proof.
  intros st. unfold token_item. exec.
  destruct (token_data st) as [td|]; [|done]. by destruct (field td).
Qed.

Lemma keeps_replace_wildcards (topic : string) : keeps f (replace_wildcards topic).
Proof. by intros st. Qed.

Lemma keeps_publish_updates : keeps f publish_updates.
Proof. intros st. rewrite publish_updates_eq. apply Hf. Qed.

End Keeps.

Lemma inward_number_of_retries : inward (number_of_retries (W := W) (Json := Json)).
Proof. by split. Qed.

Lemma inward_last_live :
  inward (λ st : @State W Json,
    (last_pumpOn st, last_mc1_setpoint st, last_mc1_supply st,
     last_mc1_return st, last_mc1_opening st)).
Proof. by split. Qed.

Lemma inward_installations : inward (installations (W := W) (Json := Json)).
Proof. by split. Qed.

#[local] Hint Resolve keeps_ret keeps_raise keeps_get keeps_lift keeps_emit
  keeps_log keeps_external keeps_client_call keeps_token_item
  keeps_replace_wildcards keeps_publish_updates inward_number_of_retries
  inward_last_live inward_installations : keeps.

(** One step of a proof that a method keeps an attribute: a step that the
    hints settle, an assignment, which is checked by computation, or the
    structure of the method, which is followed. *)
Ltac keeps_step :=
  first
    [ solve [auto with keeps]
    | apply keeps_modify; intros; reflexivity
    | apply keeps_bind; [|intros; cbv beta]
    | apply keeps_for_each; intros
    | apply keeps_try_except;
        [|let e := fresh "e" in intros e ? ?; destruct e; simplify_eq]
    | case_match ].

Ltac keeps := repeat keeps_step.

(** *** Disconnects *)

Lemma replace_wildcards_frame (topic : string) st st' :
  current_installation st' = current_installation st →
  auth_username st' = auth_username st →
  (replace_wildcards topic st').2 = (replace_wildcards topic st).2.
Proof.
  intros Hci Hau.
  unfold replace_wildcards, replace, replacements, get_install_unique; cbn.
  by rewrite Hci, Hau.
Qed.

Lemma stop_scheduler_eq st :
  stop_scheduler st =
  (with_scheduler_task None
     (with_stop_scheduler_loop true
        (with_trace (trace st ++ Log DEBUG "Stopping scheduler"
                               :: cancelled (scheduler_task st)) st)),
   inr ()).
Proof.
  unfold stop_scheduler. exec.
  destruct (scheduler_task st) eqn:Htask; exec;
    destruct st; cbn in Htask; subst; setters;
    rewrite <- ?app_assoc; reflexivity.
Qed.

Lemma disconnect_eq st (c : Client) (t1 t2 : string) :
  client st = Some c →
  (replace_wildcards LISTEN st).2 = inr t1 →
  (replace_wildcards LISTEN_TO_CONTROLLER st).2 = inr t2 →
  disconnect st =
  (with_scheduler_task None
     (with_stop_scheduler_loop true
        (with_trace
           (trace st
            ++ [Log DEBUG ("Unsubscribing from topic: " +:+ t1); Unsubscribe t1;
                Log DEBUG ("Unsubscribing from topic: " +:+ t2); Unsubscribe t2;
                ClientDisconnect; LoopStop; Log DEBUG "Stopping scheduler"]
            ++ cancelled (scheduler_task st)
            ++ [Log DEBUG "Disconnected"]) st)),
   inr ()).
Proof.
  intros Hc Ht1 Ht2. unfold replace_wildcards in Ht1, Ht2. cbn in Ht1, Ht2.
  unfold disconnect, subscribe_topics, for_each, replace_wildcards. exec.
  rewrite Ht1. repeat (exec; rewrite Hc).
  repeat change (replace (with_trace ?tr ?s)) with (replace s).
  rewrite Ht2. repeat (exec; rewrite Hc).
  clear Ht1 Ht2. rewrite stop_scheduler_eq. exec.
  destruct st; setters. rewrite <- !app_assoc. reflexivity.
Qed.

Lemma on_disconnect_informational st (rc : Z) :
  rc ≠ 0 → number_of_retries st + 1 ≤ MAX_CONNECT_RETRIES →
  on_disconnect rc st =
  (with_number_of_retries (number_of_retries st + 1)
     (with_trace (trace st ++ [Log INFO "Unexpected disconnection. Retrying..."])
        st),
   inr ()).
Proof.
  intros Hrc Hn. unfold on_disconnect. rewrite bool_decide_eq_true_2 by done.
  exec. rewrite bool_decide_eq_true_2 by done. by destruct st.
Qed.

Lemma run_informational st (rcs : list Z) :
  Forall (λ rc, rc ≠ 0) rcs →
  number_of_retries st + Z.of_nat (length rcs) ≤ MAX_CONNECT_RETRIES →
  run (call_on_disconnect <$> rcs) st =
  with_number_of_retries (number_of_retries st + Z.of_nat (length rcs))
    (with_trace
       (trace st
        ++ replicate (length rcs) (Log INFO "Unexpected disconnection. Retrying..."))
       st).
Proof.
  unfold MAX_CONNECT_RETRIES.
  intros Hrcs. revert st. induction Hrcs as [|rc rcs Hrc _ IH]; intros st Hn.
  - destruct st; setters. by rewrite Z.add_0_r, app_nil_r.
  - cbn [length] in Hn. unfold run in *. cbn [fmap list_fmap foldl call].
    rewrite on_disconnect_informational
      by (done || unfold MAX_CONNECT_RETRIES; lia).
    cbn [fst]. rewrite IH by (cbn -[Z.of_nat]; lia).
    destruct st; setters. cbn [length replicate]. f_equal; [lia|].
    by rewrite <- app_assoc.
Qed.

(** C4.  From a retry counter of zero, the first five unexpected
    disconnects only count and write an INFO entry to the log.  The sixth
    unsubscribes the two configured topics, closes the connection, stops
    the event loop and stops the scheduler: [stop_scheduler_loop] is true
    and the scheduler task is cancelled and cleared. *)
Theorem sixth_disconnect_tears_down st (rcs : list Z) (rc : Z) (c : Client)
    (t1 t2 : string) :
  number_of_retries st = 0 →
  client st = Some c →
  (replace_wildcards LISTEN st).2 = inr t1 →
  (replace_wildcards LISTEN_TO_CONTROLLER st).2 = inr t2 →
  Forall (λ rc, rc ≠ 0) rcs → rc ≠ 0 →
  (length rcs ≤ 5)%nat →
  let info := Log INFO "Unexpected disconnection. Retrying..." in
  let st' := run (call_on_disconnect <$> rcs) st in
  st' = with_number_of_retries (Z.of_nat (length rcs))
          (with_trace (trace st ++ replicate (length rcs) info) st) ∧
  (length rcs = 5%nat →
   on_disconnect rc st' =
   (with_scheduler_task None
      (with_stop_scheduler_loop true
         (with_number_of_retries 6
            (with_trace
               (trace st ++ replicate 5 info
                ++ [Log ERROR "Unexpected disconnection. Stopping...";
                    Log DEBUG ("Unsubscribing from topic: " +:+ t1);
                    Unsubscribe t1;
                    Log DEBUG ("Unsubscribing from topic: " +:+ t2);
                    Unsubscribe t2;
                    ClientDisconnect; LoopStop;
                    Log DEBUG "Stopping scheduler"]
                ++ cancelled (scheduler_task st)
                ++ [Log DEBUG "Disconnected"]) st))),
    inr ())).
Proof.
  intros Hn Hc Ht1 Ht2 Hrcs Hrc Hlen info st'.
  assert (Hst' : st' = with_number_of_retries (Z.of_nat (length rcs))
            (with_trace (trace st ++ replicate (length rcs) info) st)).
  { unfold st'. rewrite run_informational by (done || unfold MAX_CONNECT_RETRIES; lia).
    by rewrite Hn. }
  split; [done|]. intros Hfive. rewrite Hst', Hfive.
  unfold on_disconnect. rewrite bool_decide_eq_true_2 by done. exec.
  rewrite bool_decide_eq_false_2 by (unfold MAX_CONNECT_RETRIES; lia). exec.
  rewrite (disconnect_eq _ c t1 t2); [|done|..].
  - destruct st; setters. rewrite <- !app_assoc. reflexivity.
  - by rewrite (replace_wildcards_frame _ st).
  - by rewrite (replace_wildcards_frame _ st).
Qed.

(** *** The scheduler *)

Lemma crontabs_app (tr1 tr2 : list Event) :
  crontabs (tr1 ++ tr2) = crontabs tr1 ++ crontabs tr2.
Proof.
  induction tr1 as [|ev tr1 IH]; [done|]. destruct ev; cbn; by rewrite ?IH.
Qed.

(** C7.  A start of the scheduler registers three jobs: [refresh_http]
    and [refresh_live_data] every minute and [request_server_referentials]
    every five minutes.  With an access token, [expires_in] minus 300 is
    computed and written to the log; no job is registered for it. *)
Theorem start_scheduler_task_registers_three_jobs st :
  crontabs (trace (start_scheduler_task st).1) =
  crontabs (trace st)
  ++ [("*/1 * * * *", job_refresh_http);
      ("*/1 * * * *", job_refresh_live_data);
      ("*/5 * * * *", job_request_server_referentials)] ∧
  (∀ td a e,
     token_data st = Some td → td_access_token td = Some a →
     td_expires_in td = Some e →
     start_scheduler_task st =
     (with_trace
        (trace st
         ++ [Log DEBUG "Starting scheduler thread";
             Crontab "*/1 * * * *" job_refresh_http;
             Crontab "*/1 * * * *" job_refresh_live_data;
             Crontab "*/5 * * * *" job_request_server_referentials;
             Log DEBUG "Scheduling token refresh";
             Log DEBUG ("Token expires in " +:+ pretty (e - 300) +:+ " seconds")])
        st,
      inr (if stop_scheduler_loop st then Finished else Sleeping))).
Proof.
  split.
  - unfold start_scheduler_task. exec.
    destruct (token_data st) as [td|] eqn:Htd; exec;
      [destruct (td_access_token td); exec;
       [rewrite Htd; exec; destruct (td_expires_in td); exec|]|];
      rewrite !crontabs_app; cbn; by rewrite ?app_nil_r, <- ?app_assoc.
  - intros td a e Htd Ha He. unfold start_scheduler_task. exec.
    rewrite Htd. exec. rewrite Ha. exec. rewrite Htd. exec. rewrite He. exec.
    destruct st; setters. rewrite <- !app_assoc. reflexivity.
Qed.

(** *** Token refresh *)

(** C2.  When the refresh call of the identity service fails, the
    exception reaches the only [except] clause of [refresh_token]: an
    authentication error is logged and [auth_user] runs; any other
    exception, a communication error included, leaves [refresh_token]
    unlogged and is raised to its caller. *)
Theorem refresh_token_failure st (td : TokenData) (rt : string) (w' : W)
    (e : Exn) :
  token_data st = Some td → td_refresh_token td = Some rt →
  handlers_refresh rt (world st) = (w', inl e) →
  let st1 :=
    with_world w' (with_trace (trace st ++ [Log DEBUG "Refreshing token"]) st) in
  refresh_token st =
  if is_authentication_error e
  then auth_user
         (with_trace
            (trace st1 ++ [Log ERROR ("Could not refresh token: " +:+ exn_str e)])
            st1)
  else (st1, inl e).
Proof.
  intros Htd Hrt Hr. unfold refresh_token. exec. rewrite Htd. exec.
  rewrite Hrt. exec. rewrite Hr. exec.
  destruct e; exec; try (destruct st; reflexivity).
Qed.

(** *** Rebuilding the installations *)

Lemma keeps_last_live_set_installations (raws : list RawInstall) :
  keeps (λ st : @State W Json,
           (last_pumpOn st, last_mc1_setpoint st, last_mc1_supply st,
            last_mc1_return st, last_mc1_opening st))
    (set_installations raws).
Proof.
  unfold set_installations, update_installations, set_install_id. keeps.
Qed.

Lemma keeps_installations_set_install_id :
  keeps (installations (W := W) (Json := Json)) set_install_id.
Proof. unfold set_install_id. keeps. Qed.

(** The state in which [set_user] calls [set_installations]. *)
Lemma set_user_eq st (u : User) (raws : list RawInstall) (prev : Installation)
    (rest : list Installation) :
  installs u = Some raws →
  installations st = Some (prev :: rest) →
  ∃ st1,
    set_user u st = set_installations raws st1 ∧
    installations st1 = Some (prev :: rest) ∧
    last_operating_mode st1 =
      match operating_mode_hint raws with
      | Some m => Some m
      | None => last_operating_mode st
      end ∧
    last_pumpOn st1 = pumpOn prev ∧
    last_mc1_setpoint st1 = mixed_circuit1_setpoint prev ∧
    last_mc1_supply st1 = mixed_circuit1_supply prev ∧
    last_mc1_return st1 = mixed_circuit1_return prev ∧
    last_mc1_opening st1 = mixed_circuit1_opening prev.
Proof.
  intros Hraws Hinsts. unfold set_user. exec. rewrite Hraws.
  destruct (operating_mode_hint raws) as [m|]; exec; rewrite Hinsts; exec;
    (eexists; split; [reflexivity|]); by cbn.
Qed.

(** C5.  A call of [set_user] made while there are installations either
    rebuilds them or leaves them as they were.  It rebuilds them when the
    user record has [installs], the first raw install has a group and
    [parse_installations] returns.  A call with [installs] first copies the
    five telemetry values of the first installation into the carry-over
    attributes; the rebuild is [parse_installations] on the raw installs,
    the carried operating mode and these five values, and its result
    replaces the installations.  [parse_installations] injecting the
    defaults it is given, a telemetry entry of the first rebuilt
    installation that its raw install does not carry has the value it had
    in the first installation before the call.  Nothing is said of the
    telemetry of the rebuilt installations after the first. *)
Theorem set_user_carries_first_installation st (u : User)
    (prev : Installation) (rest : list Installation) :
  installations st = Some (prev :: rest) →
  let st' := (set_user u st).1 in
  (installs u = None → installations st' = Some (prev :: rest)) ∧
  (∀ raws, installs u = Some raws →
     let mode :=
       match operating_mode_hint raws with
       | Some m => Some m
       | None => last_operating_mode st
       end in
     let rebuild :=
       parse_installations raws mode (pumpOn prev)
         (mixed_circuit1_setpoint prev) (mixed_circuit1_supply prev)
         (mixed_circuit1_return prev) (mixed_circuit1_opening prev) in
     (last_pumpOn st' = pumpOn prev ∧
      last_mc1_setpoint st' = mixed_circuit1_setpoint prev ∧
      last_mc1_supply st' = mixed_circuit1_supply prev ∧
      last_mc1_return st' = mixed_circuit1_return prev ∧
      last_mc1_opening st' = mixed_circuit1_opening prev) ∧
     (has_groups raws = false → installations st' = Some (prev :: rest)) ∧
     (has_groups raws = true →
      ∀ e, rebuild = inl e →
        (set_user u st).2 = inl e ∧ installations st' = Some (prev :: rest)) ∧
     (has_groups raws = true →
      ∀ parsed, rebuild = inr parsed →
        installations st' = Some parsed ∧
        (parse_installations_injects_defaults →
         ∃ raw raws' first others,
           raws = raw :: raws' ∧
           installations st' = Some (first :: others) ∧
           pumpOn first = default (pumpOn prev) (raw_pumpOn raw) ∧
           mixed_circuit1_setpoint first =
             default (mixed_circuit1_setpoint prev)
               (raw_mixed_circuit1_setpoint raw) ∧
           mixed_circuit1_supply first =
             default (mixed_circuit1_supply prev)
               (raw_mixed_circuit1_supply raw) ∧
           mixed_circuit1_return first =
             default (mixed_circuit1_return prev)
               (raw_mixed_circuit1_return raw) ∧
           mixed_circuit1_opening first =
             default (mixed_circuit1_opening prev)
               (raw_mixed_circuit1_opening raw)))).
Proof.
  intros Hinsts st'. split.
  - intros Hnone. subst st'. unfold set_user. exec. rewrite Hnone. exact Hinsts.
  - intros raws Hraws mode rebuild.
    destruct (set_user_eq st u raws prev rest Hraws Hinsts)
      as (st1 & Heq & Hinsts1 & Hmode & Hp & Hsp & Hsu & Hre & Hop).
    assert (Hrebuilt : has_groups raws = true → ∀ parsed, rebuild = inr parsed →
              installations (set_installations raws st1).1 = Some parsed).
    { intros Hgroups parsed Hparse.
      unfold set_installations. rewrite Hgroups, bind_eq.
      unfold update_installations. exec.
      rewrite Hmode, Hp, Hsp, Hsu, Hre, Hop. fold mode. fold rebuild.
      rewrite Hparse. exec.
      rewrite publish_updates_eq. cbn [fst snd].
      by rewrite keeps_installations_set_install_id. }
    subst st'. rewrite Heq. split; [|split; [|split]].
    + pose proof (keeps_last_live_set_installations raws st1) as Hk.
      cbn in Hk. rewrite <- Hp, <- Hsp, <- Hsu, <- Hre, <- Hop.
      by simplify_eq.
    + intros Hgroups. unfold set_installations. by rewrite Hgroups.
    + intros Hgroups e Hparse.
      unfold set_installations. rewrite Hgroups, bind_eq.
      unfold update_installations. exec.
      rewrite Hmode, Hp, Hsp, Hsu, Hre, Hop. fold mode. fold rebuild.
      rewrite Hparse. by exec.
    + intros Hgroups parsed Hparse. split; [by apply Hrebuilt|].
      intros Hspec. rewrite (Hrebuilt Hgroups parsed Hparse).
      pose proof (Hspec _ _ _ _ _ _ _ _ Hparse) as Hall.
      destruct Hall as [|raw first raws' others Hfirst _]; [done|].
      exists raw, raws', first, others.
      destruct Hfirst as (? & ? & ? & ? & ?). by split_and!.
Qed.

(** *** The retry counter *)

Lemma keeps_retries_send_topics : keeps number_of_retries send_topics.
Proof. unfold send_topics. keeps. Qed.

Lemma keeps_retries_send_message (topic : string) (message : Message) :
  keeps number_of_retries (send_message topic message).
Proof. unfold send_message. keeps. Qed.

Lemma keeps_retries_disconnect : keeps number_of_retries disconnect.
Proof. unfold disconnect, stop_scheduler. keeps. Qed.

Lemma keeps_retries_set_installations (raws : list RawInstall) :
  keeps number_of_retries (set_installations raws).
Proof.
  unfold set_installations, update_installations, set_install_id. keeps.
Qed.

#[local] Hint Resolve keeps_retries_send_topics keeps_retries_send_message
  keeps_retries_disconnect keeps_retries_set_installations : keeps.

Lemma keeps_retries_set_user (u : User) : keeps number_of_retries (set_user u).
Proof. unfold set_user, first_installation. keeps. Qed.

Lemma keeps_retries_init_mqtt_client : keeps number_of_retries init_mqtt_client.
Proof.
  unfold init_mqtt_client, start_scheduler, start_mqtt_client. keeps.
Qed.

#[local] Hint Resolve keeps_retries_set_user keeps_retries_init_mqtt_client
  : keeps.

Lemma keeps_retries_auth_user : keeps number_of_retries auth_user.
Proof. unfold auth_user, set_token_data. keeps. Qed.

#[local] Hint Resolve keeps_retries_auth_user : keeps.

Lemma keeps_retries_refresh_token : keeps number_of_retries refresh_token.
Proof. unfold refresh_token, set_token_data, reconnect. keeps. Qed.

#[local] Hint Resolve keeps_retries_refresh_token : keeps.

Lemma keeps_retries_read_user_http : keeps number_of_retries read_user_http.
Proof. unfold read_user_http, get_install_ids. keeps. Qed.

Lemma keeps_retries_request_server_referentials :
  keeps number_of_retries request_server_referentials.
Proof. unfold request_server_referentials. keeps. Qed.

#[local] Hint Resolve keeps_retries_read_user_http
  keeps_retries_request_server_referentials : keeps.

Lemma on_disconnect_retries st (rc : Z) :
  number_of_retries (on_disconnect rc st).1 =
  number_of_retries st + (if bool_decide (rc ≠ 0) then 1 else 0).
Proof.
  unfold on_disconnect. case_bool_decide; [|cbn; lia].
  exec. case_bool_decide; exec; [done|].
  by rewrite keeps_retries_disconnect.
Qed.

Lemma keeps_retries_on_connect (rc : Z) : keeps number_of_retries (on_connect rc).
Proof. unfold on_connect. keeps. Qed.

Lemma keeps_retries_refresh_live_data : keeps number_of_retries refresh_live_data.
Proof. unfold refresh_live_data. keeps. Qed.

Lemma keeps_retries_update_live_data (payload : LivePayload) :
  keeps (number_of_retries (W := W) (Json := Json)) (update_live_data payload).
Proof. unfold update_live_data, find_installation. keeps. Qed.

Lemma keeps_retries_update_channel (payload : ChannelPayload) :
  keeps (number_of_retries (W := W) (Json := Json)) (update_channel payload).
Proof. unfold update_channel, find_installation. keeps. Qed.

Lemma call_retries (c : Input) st :
  is_refresh_http c = false →
  number_of_retries (call c st).1 =
  number_of_retries st + (if is_unexpected_disconnect c then 1 else 0).
Proof.
  intros Hc. destruct c; try done; cbn [call is_unexpected_disconnect];
    try apply on_disconnect_retries; rewrite Z.add_0_r.
  - apply keeps_retries_on_connect.
  - apply keeps_retries_refresh_live_data.
  - apply keeps_retries_request_server_referentials.
  - apply keeps_retries_update_live_data.
  - apply keeps_retries_update_channel.
  - done.
  - done.
Qed.

Lemma run_retries (cs : list Input) st :
  forallb (λ c, negb (is_refresh_http c)) cs = true →
  number_of_retries (run cs st) = number_of_retries st + unexpected_disconnects cs.
Proof.
  revert st. induction cs as [|c cs IH]; intros st Hcs; cbn in *; [lia|].
  apply andb_prop in Hcs as [Hc Hcs]. apply negb_true_iff in Hc.
  unfold run in *. rewrite IH, call_retries by done. lia.
Qed.

Lemma refresh_http_eq st :
  refresh_http st =
  (send_topics;; read_user_http)
    (with_number_of_retries 0
       (with_trace (trace st ++ [Log DEBUG "Refreshing user data"]) st)).
Proof. reflexivity. Qed.

(** C10.  [refresh_http] sets [number_of_retries] to 0 before it
    subscribes and polls, and nothing that follows in it changes the
    counter.  So, whatever happened before the latest run of the job, the
    counter is the number of unexpected disconnects since that run. *)
Theorem refresh_http_resets_retries st (pre post : list Input) :
  refresh_http st =
    (send_topics;; read_user_http)
      (with_number_of_retries 0
         (with_trace (trace st ++ [Log DEBUG "Refreshing user data"]) st)) ∧
  number_of_retries (refresh_http st).1 = 0 ∧
  (forallb (λ c, negb (is_refresh_http c)) post = true →
   number_of_retries (run (pre ++ call_refresh_http :: post) st) =
   unexpected_disconnects post).
Proof.
  assert (Hreset : ∀ st0 : @State W Json, number_of_retries (refresh_http st0).1 = 0).
  { intros st0. rewrite refresh_http_eq.
    assert (Hk : keeps number_of_retries (send_topics;; read_user_http)).
    { keeps. }
    by rewrite Hk. }
  split_and!; [reflexivity|apply Hreset|].
  intros Hpost. unfold run. rewrite foldl_app. cbn [foldl call].
  fold (run pre st). fold (run post (refresh_http (run pre st)).1).
  rewrite run_retries, Hreset by done. lia.
Qed.

(** *** More on topic resolution *)

Lemma ascii_lower_open_brace (c : ascii) :
  ascii_lower c = "{"%char → c = "{"%char.
Proof.
  destruct c as [[] [] [] [] [] [] [] []]; vm_compute; congruence.
Qed.

Lemma match_alt_other_start (c : ascii) (s : string) :
  Ascii.eqb c "{" = false →
  match_alt ["{id}"; "{email}"] (String c s) = None.
Proof.
  intros Hc. assert (Hne : Ascii.eqb (ascii_lower "{") (ascii_lower c) = false).
  { apply Ascii.eqb_neq. intros Heq. apply Ascii.eqb_neq in Hc. apply Hc.
    apply ascii_lower_open_brace. by rewrite <- Heq. }
  cbn -[ascii_lower]. by rewrite Hne.
Qed.

Lemma append_empty_r (s : string) : s +:+ "" = s.
Proof.
  induction s as [|c s IH]; [done|].
  change (String c s +:+ "") with (String c (s +:+ "")). by rewrite IH.
Qed.

Lemma re_sub_prefix (repl : string → Exn + option string) (pre s : string) :
  no_open_brace pre = true →
  re_sub ["{id}"; "{email}"] repl (pre +:+ s) =
  match re_sub ["{id}"; "{email}"] repl s with
  | inl e => inl e
  | inr out => inr (pre +:+ out)
  end.
Proof.
  unfold re_sub. induction pre as [|c pre IH]; intros Hpre.
  - cbn. by destruct (re_sub_from _ _ _ _).
  - cbn in Hpre. apply andb_prop in Hpre as [Hc Hpre].
    apply negb_true_iff in Hc.
    change (String c pre +:+ s) with (String c (pre +:+ s)).
    cbn [re_sub_from]. rewrite match_alt_other_start, IH by done.
    by destruct (re_sub_from _ _ _ s).
Qed.


Lemma re_sub_id (repl : string → Exn + option string) (rest : string) :
  re_sub ["{id}"; "{email}"] repl ("{id}" +:+ rest) =
  match repl "{id}" with
  | inl e => inl e
  | inr r =>
      match re_sub ["{id}"; "{email}"] repl rest with
      | inl e => inl e
      | inr out => inr (default "" r +:+ out)
      end
  end.
Proof. reflexivity. Qed.

Lemma re_sub_email (repl : string → Exn + option string) (rest : string) :
  re_sub ["{id}"; "{email}"] repl ("{email}" +:+ rest) =
  match repl "{email}" with
  | inl e => inl e
  | inr r =>
      match re_sub ["{id}"; "{email}"] repl rest with
      | inl e => inl e
      | inr out => inr (default "" r +:+ out)
      end
  end.
Proof. reflexivity. Qed.


(** *** More on the observers *)

Lemma calls_of_publish_updates st (cb : nat) :
  calls_of cb (trace (publish_updates st).1) =
    (calls_of cb (trace st) + if bool_decide (cb ∈ callbacks st) then 1 else 0)%nat.
Proof.
  rewrite publish_updates_eq. cbn. rewrite calls_of_app.
  rewrite calls_of_called by apply NoDup_elements.
  f_equal. apply (f_equal (λ b : bool, if b then 1%nat else 0%nat)).
  apply bool_decide_ext, elem_of_elements.
Qed.



(** *** More on the scheduler and the subscriptions *)



(** *** Exceptions that a method can raise *)

Section RaisesOnly.

Context (P : Exn → Prop).

Lemma raises_only_ret {A : Type} (a : A) : raises_only (W := W) (Json := Json) P (mret a : M A).
Proof. by intros st st' e. Qed.

Lemma raises_only_raise {A : Type} (e : Exn) :
  P e → raises_only (W := W) (Json := Json) P (raise (A := A) e : M A).
Proof. intros He st st' e' [= _ <-]. done. Qed.

Lemma raises_only_get : raises_only (W := W) (Json := Json) P (get : M (@State W Json)).
Proof. by intros st st' e. Qed.

Lemma raises_only_modify (g : @State W Json → @State W Json) :
  raises_only (W := W) (Json := Json) P (modify g).
Proof. by intros st st' e. Qed.

Lemma raises_only_emit (ev : Event) : raises_only (W := W) (Json := Json) P (emit ev : M unit).
Proof. by intros st st' e. Qed.

Lemma raises_only_log (lvl : Level) (msg : string) :
  raises_only (W := W) (Json := Json) P (log lvl msg : M unit).
Proof. by intros st st' e. Qed.

Lemma raises_only_bind {A C : Type} (m : M A) (k : A → M C) :
  raises_only (W := W) (Json := Json) P m → (∀ a, raises_only (W := W) (Json := Json) P (k a)) → raises_only (W := W) (Json := Json) P (m ≫= k).
Proof.
  intros Hm Hk st st' e. rewrite bind_eq.
  destruct (m st) as [st1 [e1|a]] eqn:Hmst.
  - intros [= <- <-]. by eapply Hm.
  - apply Hk.
Qed.

Lemma raises_only_for_each {X : Type} (l : list X) (body : X → M unit) :
  (∀ x, raises_only (W := W) (Json := Json) P (body x)) → raises_only (W := W) (Json := Json) P (for_each l body).
Proof.
  intros Hbody. induction l as [|x l IH]; cbn [for_each].
  - apply raises_only_ret.
  - apply raises_only_bind; [apply Hbody|by intros _].
Qed.

Lemma raises_only_client_call (ev : Event) :
  (∀ msg, P (AttributeError msg)) → raises_only (W := W) (Json := Json) P (client_call ev : M unit).
Proof.
  intros HP st st' e. unfold client_call. exec.
  destruct (client st); [done|]. intros [= _ <-]. apply HP.
Qed.

Lemma raises_only_token_item {A : Type} (key : string)
    (field : TokenData → option A) :
  (∀ msg, P (TypeError msg)) → (∀ k, P (KeyError k)) →
  raises_only (W := W) (Json := Json) P (token_item key field : M A).
Proof.
  intros HT HK st st' e. unfold token_item. exec.
  destruct (token_data st) as [td|]; [destruct (field td)|]; [done|..];
    intros [= _ <-]; auto.
Qed.

Lemma re_sub_from_raises (alts : list string)
    (repl : string → Exn + option string) (skip : nat) (s : string) (e : Exn) :
  re_sub_from alts repl skip s = inl e → ∃ m, repl m = inl e.
Proof.
  revert skip. induction s as [|c s IH]; intros skip; cbn [re_sub_from]; [done|].
  destruct skip as [|k]; [|apply IH].
  destruct (match_alt alts (String c s)) as [[|c' m']|].
  - destruct (re_sub_from alts repl 0 s) eqn:Hs; [|done].
    intros [= <-]. by eapply IH.
  - destruct (repl (String c' m')) as [e'|r] eqn:Hr.
    + intros [= <-]. eauto.
    + destruct (re_sub_from alts repl (String.length m') s) eqn:Hs; [|done].
      intros [= <-]. by eapply IH.
  - destruct (re_sub_from alts repl 0 s) eqn:Hs; [|done].
    intros [= <-]. by eapply IH.
Qed.

Lemma raises_only_replace_wildcards (topic : string) :
  (∀ k, P (KeyError k)) → raises_only (W := W) (Json := Json) P (replace_wildcards topic : M string).
Proof.
  intros HK st st' e [= _ Hsub]. apply re_sub_from_raises in Hsub as [m Hm].
  unfold replace in Hm. destruct (replacements st !! m); [done|].
  injection Hm as <-. apply HK.
Qed.

End RaisesOnly.

(** One step of a proof about the exceptions of a method. *)
Ltac raises_step :=
  first
    [ apply raises_only_ret | apply raises_only_get | apply raises_only_modify
    | apply raises_only_emit | apply raises_only_log
    | apply raises_only_raise; done
    | apply raises_only_client_call; done
    | apply raises_only_token_item; done
    | apply raises_only_replace_wildcards; done
    | assumption
    | apply raises_only_bind; [|intros; cbv beta]
    | apply raises_only_for_each; intros
    | case_match ].

Ltac raises := repeat raises_step.

Lemma disconnect_raises_builtin :
  raises_only (W := W) (Json := Json) (λ e, is_builtin e = true) (disconnect : M unit).
Proof. unfold disconnect, stop_scheduler. raises. Qed.

(** Setting up the connection raises no exception of [exceptions.py]: what
    it raises is a missing token ([TypeError], [KeyError]), a topic that
    does not resolve ([KeyError]) or a missing connection object. *)
Lemma init_mqtt_client_raises_builtin :
  raises_only (W := W) (Json := Json) (λ e, is_builtin e = true) (init_mqtt_client : M unit).
Proof.
  pose proof disconnect_raises_builtin.
  unfold init_mqtt_client, start_scheduler, start_mqtt_client. raises.
Qed.

(** *** Setting up the connection *)

(** One step of a run: the first action of a sequence is carried out. *)
Ltac step :=
  rewrite bind_eq;
  cbv beta iota delta [get modify emit log mret M_ret].

Lemma token_item_eq {A : Type} (key : string) (field : TokenData → option A)
    st (td : TokenData) (v : A) :
  token_data st = Some td → field td = Some v →
  token_item key field st = (st, inr v).
Proof. intros Htd Hv. unfold token_item. exec. by rewrite Htd, Hv. Qed.

(** The calls on the new connection object, once it is stored. *)
Lemma connect_chain st (c : Client) (u p : string) :
  client st = Some c →
  (client_call (UsernamePwSet u p);;
   client_call TlsSet;;
   client_call EnableLogger;;
   client_call (ReconnectDelaySet 30 300);;
   client_call (Connect "mqtt.nea2aws.aws.rehau.cloud" 443);;
   start_scheduler;;
   start_mqtt_client) st =
  (with_scheduler_task (Some (MkTask "Rehau NEA Smart 2 Scheduler"))
     (with_trace
        (trace st
         ++ [UsernamePwSet u p; TlsSet; EnableLogger; ReconnectDelaySet 30 300;
             Connect "mqtt.nea2aws.aws.rehau.cloud" 443;
             CreateTask "Rehau NEA Smart 2 Scheduler"; LoopStart]) st),
   inr ()).
Proof.
  intros Hc. unfold start_scheduler, start_mqtt_client.
  exec. repeat (rewrite Hc; exec).
  destruct st; setters; rewrite <- !app_assoc; reflexivity.
Qed.

Lemma init_mqtt_client_first st (td : TokenData) (a : string) :
  client st = None →
  token_data st = Some td → td_access_token td = Some a →
  init_mqtt_client st =
  (with_scheduler_task (Some (MkTask "Rehau NEA Smart 2 Scheduler"))
     (with_client (Some (MkClient (client_id st)))
        (with_trace
           (trace st ++ Log DEBUG "Initializing MQTT client"
                        :: connect_events (client_id st) (username st) a) st)),
   inr ()).
Proof.
  intros Hc Htd Ha. unfold init_mqtt_client.
  step. step. change (client (with_trace ?t st)) with (client st).
  rewrite Hc. step. step. step. step. rewrite bind_eq.
  erewrite token_item_eq; [|exact Htd|exact Ha].
  erewrite connect_chain; [|reflexivity].
  destruct st; setters; rewrite <- !app_assoc; reflexivity.
Qed.

Lemma init_mqtt_client_again st (c : Client) (t1 t2 : string) (td : TokenData)
    (a : string) :
  client st = Some c →
  (replace_wildcards LISTEN st).2 = inr t1 →
  (replace_wildcards LISTEN_TO_CONTROLLER st).2 = inr t2 →
  token_data st = Some td → td_access_token td = Some a →
  init_mqtt_client st =
  (with_scheduler_task (Some (MkTask "Rehau NEA Smart 2 Scheduler"))
     (with_client (Some (MkClient (client_id st)))
        (with_stop_scheduler_loop true
           (with_trace
              (trace st ++ Log DEBUG "Initializing MQTT client"
               :: teardown_events t1 t2 ++ cancelled (scheduler_task st)
               ++ Log DEBUG "Disconnected"
               :: connect_events (client_id st) (username st) a) st))),
   inr ()).
Proof.
  intros Hc Ht1 Ht2 Htd Ha. unfold init_mqtt_client.
  step. step. change (client (with_trace ?t st)) with (client st).
  rewrite Hc. rewrite bind_eq. cbv beta iota.
  rewrite (disconnect_eq _ c t1 t2); [|exact Hc|..];
    [|by rewrite (replace_wildcards_frame _ st)..].
  step. step. step. rewrite bind_eq.
  erewrite token_item_eq; [|exact Htd|exact Ha].
  erewrite connect_chain; [|reflexivity].
  destruct st; setters; rewrite <- !app_assoc; reflexivity.
Qed.

Lemma start_scheduler_task_result st (td : TokenData) (a : string) (x : Z) :
  token_data st = Some td → td_access_token td = Some a →
  td_expires_in td = Some x →
  (start_scheduler_task st).2 =
  inr (if stop_scheduler_loop st then Finished else Sleeping).
Proof.
  intros Htd Ha Hx. unfold start_scheduler_task. exec.
  rewrite Htd. exec. rewrite Ha. exec. rewrite Htd. exec. by rewrite Hx.
Qed.





(** *** Authentication and token refresh *)



(** *** Polling the user record *)



(** *** Attributes of the session *)

Lemma inward_authenticated : inward (authenticated (W := W) (Json := Json)).
Proof. by split. Qed.

Lemma inward_transaction_id : inward (transaction_id (W := W) (Json := Json)).
Proof. by split. Qed.

#[local] Hint Resolve inward_authenticated inward_transaction_id : keeps.

(** What a call from outside runs, down to the primitives. *)
Ltac methods :=
  cbn [call];
  unfold on_connect, on_disconnect, refresh_http, refresh_live_data,
    request_server_referentials, update_live_data, update_channel,
    register_callback, remove_callback, read_user_http, refresh_token,
    auth_user, reconnect, init_mqtt_client, set_user, set_installations,
    update_installations, set_install_id, set_token_data, send_topics,
    send_message, disconnect, stop_scheduler, start_scheduler,
    start_mqtt_client, get_install_ids, first_installation, find_installation.

Lemma keeps_authenticated_call (c : Input) :
  (∀ rc, c ≠ call_on_connect rc) → keeps authenticated (call c).
Proof. intros Hc. destruct c; [by destruct (Hc rc)|methods; keeps..]. Qed.

Lemma keeps_transaction_id_call (c : Input) : keeps transaction_id (call c).
Proof. destruct c; methods; keeps. Qed.

Lemma run_cons (c : Input) (cs : list Input) st :
  run (c :: cs) st = run cs (call c st).1.
Proof. reflexivity. Qed.


Lemma keeps_transaction_id_set_user (u : User) :
  keeps transaction_id (set_user u).
Proof. methods. keeps. Qed.


(** *** The current installation *)


End Properties.

(** ** The properties on the sample deployment *)

(** Placeholders in lower case are replaced, also where the text before
    them looks like the start of one. *)
Example replace_wildcards_lower_case :
  (replace_wildcards "client/{id}/{email}" (sample_state Online)).2
  = inr "client/abc/user@example.org" ∧
  (replace_wildcards "{i{id}}" (sample_state Online)).2 = inr "{iabc}".
Proof. split; vm_compute; reflexivity. Qed.

(** A successful refresh of the user record rebuilds the installation and
    sets the current installation from the default install. *)
Example refresh_http_online :
  let st' := (refresh_http (E := sample_externals) (sample_state Online)).1 in
  installations st' =
    Some [sample_parse_install 1 300 295 270 55 sample_raw_install] ∧
  get_install_unique st' = Some "abc" ∧
  last_operating_mode st' = Some 2.
Proof. vm_compute. by repeat split. Qed.

Lemma sample_parse_injects_defaults :
  parse_installations_injects_defaults (E := sample_externals).
Proof.
  intros raws mode pump setpoint supply ret opening parsed [= <-].
  induction raws as [|raw raws IH]; constructor; [|done]. by repeat split.
Qed.

(** C2, on the sample: the identity service is offline, the refresh fails
    with a communication error, and [refresh_token] raises it. *)
Lemma refresh_token_raises_communication_error :
  handlers_refresh (Externals := sample_externals) "refresh-1" Offline =
    (Offline, inl (MqttClientCommunicationError "offline")) ∧
  refresh_token (E := sample_externals) (sample_state Offline) =
    (with_trace [Log DEBUG "Refreshing token"] (sample_state Offline),
     inl (MqttClientCommunicationError "offline")).
Proof. split; vm_compute; reflexivity. Qed.

Lemma refresh_token_failure_witness :
  refresh_token (E := sample_externals) (sample_state RefreshTokenExpired) =
  auth_user (E := sample_externals)
    (with_trace
       [Log DEBUG "Refreshing token";
        Log ERROR "Could not refresh token: invalid_grant"]
       (sample_state RefreshTokenExpired)).
Proof.
  etrans.
  - apply (refresh_token_failure (E := sample_externals)
             (sample_state RefreshTokenExpired) sample_token "refresh-1"
             RefreshTokenExpired (MqttClientAuthenticationError "invalid_grant"));
      vm_compute; reflexivity.
  - vm_compute; reflexivity.
Defined.

(** On the sample: the update of channel [c2].  Afterwards its
    [energy_level] is 3 and its [target_temperature] 215, and the channels
    [c1] and [c3] are as before. *)
Lemma update_channel_spec_witness :
  ∃ st' inst' c',
    update_channel c2_payload (sample_state Online) = (st', inr ()) ∧
    trace st' = [Called 2%nat; Called 1%nat] ∧
    installations st' = Some [inst'] ∧
    c' ∈ channels_of inst' ∧
    (channel_id_of c', energy_level c', target_temperature c') = ("c2", 3, 215) ∧
    (channels_of sample_installation, channels_of inst') =
      ([sample_channel "c1" 210 0; sample_channel "c2" 200 1;
        sample_channel "c3" 190 2],
       [sample_channel "c1" 210 0; sample_channel "c2" 215 3;
        sample_channel "c3" 190 2]).
Proof.
  destruct (update_channel_spec (sample_state Online)
              c2_payload [sample_installation] eq_refl) as [Hfound _].
  destruct (Hfound [] sample_installation [] eq_refl)
    as (path & inst' & g' & z' & c' & Hpath & Heq & Hlevel & Htarget & Hc
        & Hz & _ & Hg & _ & Hi & _).
  - intros x Hx. by apply elem_of_nil in Hx.
  - reflexivity.
  - eexists _, _, _. split_and!.
    + apply list_elem_of_here.
    + apply list_elem_of_further, list_elem_of_here.
    + apply list_elem_of_here.
    + reflexivity.
  - eexists _, inst', c'. split_and!.
    + exact Heq.
    + vm_compute; reflexivity.
    + reflexivity.
    + unfold channels_of. rewrite Hi, fmap_app, concat_app, fmap_cons.
      rewrite concat_cons, Hg, fmap_app, concat_app, fmap_cons, concat_cons, Hz.
      set_solver.
    + destruct Hpath as (_ & _ & _ & Hid & _), Hc as (Hid' & _).
      rewrite Hid', Hid, Hlevel, Htarget. reflexivity.
    + pose proof (f_equal (λ r, installations r.1) Heq) as Hinst'.
      vm_compute in Hinst'. injection Hinst' as <-. vm_compute; reflexivity.
Defined.

(** On the sample: five unexpected disconnects, then a sixth. *)
Lemma sixth_disconnect_tears_down_witness :
  let st' := run (E := sample_externals) (call_on_disconnect <$> [1; 1; 2; 1; 7])
               (sample_state Online) in
  number_of_retries st' = 5 ∧ stop_scheduler_loop st' = false ∧
  stop_scheduler_loop (on_disconnect (E := sample_externals) 1 st').1 = true.
Proof.
  pose proof (sixth_disconnect_tears_down (E := sample_externals)
                (sample_state Online) [1; 1; 2; 1; 7] 1 (MkClient "app-0")
                "client/user@example.org" "client/abc/realtime") as H.
  destruct H as [Hfirst Hsixth]; try (vm_compute; reflexivity).
  - repeat constructor; lia.
  - lia.
  - cbv zeta. rewrite (Hsixth eq_refl), Hfirst. by vm_compute.
Defined.

(** C5, on the sample with two installations.  The raw install of the
    second installation carries no telemetry entry; the call rebuilds the
    installations, and the telemetry of the second installation is then
    not what it was before the call but what the first installation had. *)
Lemma set_user_second_installation_not_carried_forward :
  let st := with_installations
              (Some [sample_installation; sample_installation_2])
              (sample_state Online) in
  let r := set_user (E := sample_externals) sample_user_two_installs st in
  (raw_pumpOn sample_raw_install_2,
   raw_mixed_circuit1_setpoint sample_raw_install_2,
   raw_mixed_circuit1_supply sample_raw_install_2,
   raw_mixed_circuit1_return sample_raw_install_2,
   raw_mixed_circuit1_opening sample_raw_install_2) =
    (None, None, None, None, None) ∧
  (λ l : list Installation, (λ i, (unique i, live_data_of i)) <$> l)
    <$> installations st =
    Some [("abc", (1, 300, 295, 270, 55)); ("def", (0, 222, 218, 205, 10))] ∧
  r.2 = inr () ∧
  (λ l : list Installation, (λ i, (unique i, live_data_of i)) <$> l)
    <$> installations r.1 =
    Some [("abc", (1, 310, 295, 270, 55)); ("def", (1, 300, 295, 270, 55))].
Proof. split_and!; vm_compute; reflexivity. Qed.

(** On the sample: two calls of [set_user] in succession, with live data
    for the installation in between.  The raw install carries the setpoint
    only; after the second call the four other telemetry entries are those
    of the live data. *)
Lemma set_user_carries_first_installation_witness :
  let st1 := (update_live_data live_payload
                (set_user (E := sample_externals) sample_user
                   (sample_state Online)).1).1 in
  let st' := (set_user (E := sample_externals) sample_user st1).1 in
  (live_data_of <$> (installations st1 ≫= head)) = Some (0, 305, 299, 275, 60) ∧
  raw_mixed_circuit1_setpoint sample_raw_install = Some 310 ∧
  ∃ first,
    installations st' = Some [first] ∧
    live_data_of first = (0, 310, 299, 275, 60).
Proof.
  set (st1 := (update_live_data live_payload
                 (set_user (E := sample_externals) sample_user
                    (sample_state Online)).1).1).
  set (prev := installation_write_live live_payload
                 (sample_parse_install 1 300 295 270 55 sample_raw_install)).
  assert (Hinsts : installations st1 = Some [prev]) by (vm_compute; reflexivity).
  cbv zeta. split_and!; [vm_compute; reflexivity|reflexivity|].
  destruct (set_user_carries_first_installation (E := sample_externals)
              st1 sample_user prev [] Hinsts) as [_ Hinstalls].
  destruct (Hinstalls [sample_raw_install] eq_refl)
    as (_ & _ & _ & Hrebuild).
  destruct (Hrebuild eq_refl _ eq_refl) as [Hparsed Hcarry].
  destruct (Hcarry sample_parse_injects_defaults)
    as (raw & raws' & first & others & Hraws & Hfirst
        & Hp & Hsp & Hsu & Hre & Hop).
  injection Hraws as <- <-.
  rewrite Hparsed in Hfirst. injection Hfirst as Hfirst _.
  exists first. split.
  - rewrite Hparsed. exact (f_equal (λ x, Some [x]) Hfirst).
  - unfold live_data_of. rewrite Hp, Hsp, Hsu, Hre, Hop. reflexivity.
Defined.

(** On the sample: live data for the installation [abc].  Afterwards
    its five telemetry entries are those of the payload, and its other
    entries are as before. *)
Lemma update_live_data_spec_witness :
  ∃ inst',
    update_live_data live_payload (sample_state Online) =
    (with_trace [Called 2%nat; Called 1%nat]
       (with_installations (Some [inst']) (sample_state Online)),
     inr ()) ∧
    live_data_of sample_installation = (1, 300, 295, 270, 55) ∧
    live_data_of inst' = (0, 305, 299, 275, 60) ∧
    (inst_id inst', unique inst', global_energy_level inst', connected inst',
     operating_mode inst', groups inst', outside_temp inst',
     outsideTempFiltered inst') =
    ("6001", "abc", 0, true, 0, groups sample_installation, 80, 82).
Proof.
  destruct (proj1 (proj2 (update_live_data_spec (sample_state Online)
                            live_payload [sample_installation] eq_refl))
              [] sample_installation [])
    as (inst' & Heq & Hp & Hsp & Hsu & Hre & Hop
        & Hid & Hun & Hgel & Hco & Hom & Hgr & Hot & Hof).
  - reflexivity.
  - intros x Hx. by apply elem_of_nil in Hx.
  - reflexivity.
  - exists inst'. split_and!.
    + etrans; [exact Heq|]. vm_compute; reflexivity.
    + reflexivity.
    + unfold live_data_of. rewrite Hp, Hsp, Hsu, Hre, Hop. reflexivity.
    + rewrite Hid, Hun, Hgel, Hco, Hom, Hgr, Hot, Hof. reflexivity.
Defined.

(** C7, on the sample: the jobs after a start of the scheduler.  There
    are three, and none of them runs [refresh_token]. *)
Lemma start_scheduler_task_registers_no_token_job :
  crontabs (trace (start_scheduler_task (sample_state Online)).1) =
  [("*/1 * * * *", job_refresh_http);
   ("*/1 * * * *", job_refresh_live_data);
   ("*/5 * * * *", job_request_server_referentials)].
Proof. vm_compute; reflexivity. Qed.

Lemma start_scheduler_task_registers_three_jobs_witness :
  start_scheduler_task (sample_state Online) =
  (with_trace
     [Log DEBUG "Starting scheduler thread";
      Crontab "*/1 * * * *" job_refresh_http;
      Crontab "*/1 * * * *" job_refresh_live_data;
      Crontab "*/5 * * * *" job_request_server_referentials;
      Log DEBUG "Scheduling token refresh";
      Log DEBUG "Token expires in 3300 seconds"]
     (sample_state Online),
   inr Sleeping).
Proof.
  etrans.
  - apply (proj2 (start_scheduler_task_registers_three_jobs (sample_state Online))
             sample_token "access-1" 3600); reflexivity.
  - vm_compute; reflexivity.
Defined.

(** On the sample: the sixth failure in a row is reported. *)
Lemma send_message_counts_failures_witness :
  send_message (E := sample_externals) "client/{id}" ReqLive
    (with_number_of_message_failures 5 (sample_state Offline)) =
  (with_number_of_message_failures 6
     (with_trace
        [Log DEBUG "Sending message client/abc: {'11': 'REQ_LIVE', '12': {'DATA': '1'}}";
         Publish "client/abc" "{'11': 'REQ_LIVE', '12': {'DATA': '1'}}";
         Log ERROR "Error sending message client/abc. Failed 6 times. Data: {'11': 'REQ_LIVE', '12': {'DATA': '1'}}"]
        (sample_state Offline)),
   inr 1).
Proof.
  etrans.
  - apply (send_message_counts_failures (E := sample_externals)
             (with_number_of_message_failures 5 (sample_state Offline))
             "client/{id}" ReqLive "client/abc" (MkClient "app-0") 4 1 Offline);
      vm_compute; reflexivity.
  - vm_compute; reflexivity.
Defined.

(** On the sample: observer 5 is not registered. *)
Lemma callbacks_are_a_set_witness :
  remove_callback 5%nat (sample_state Online) =
  (sample_state Online, inr ()).
Proof.
  apply (callbacks_are_a_set (sample_state Online) 5%nat).
  apply (bool_decide_unpack _). by vm_compute.
Defined.

(** On the sample: two unexpected disconnects before the refresh job,
    one after it. *)
Lemma refresh_http_resets_retries_witness :
  number_of_retries
    (run (E := sample_externals)
       ([call_on_disconnect 1; call_on_disconnect 1]
        ++ call_refresh_http
        :: [call_on_disconnect 0; call_update_live_data live_payload;
            call_on_disconnect 1])
       (sample_state Online)) = 1.
Proof.
  etrans.
  - apply (refresh_http_resets_retries (E := sample_externals)
             (sample_state Online)). reflexivity.
  - reflexivity.
Defined.

(** ** Further properties on the sample deployment *)















